(** * gluonpilot: the sensor acquisition and GPS tasks of [rtos_pilot/sensors.c]

    A shallow embedding of [sensors_task], [read_raw_sensor_data],
    [scale_raw_sensor_data] and [sensors_gps_task], with the properties the
    design document states about them.

    Conventions.
    - C [float] is IEEE 754 binary32, evaluated with the Standard Library's
      executable [SpecFloat] operations at precision 24 (round to nearest,
      ties to even).  Where the C source mixes in the [double] literal of
      [INVERT_X], the operands are binary32 values and the result is stored in
      a [float]; rounding a division or a product once to binary32 gives the
      same value as rounding through a wider [double] first, so the binary32
      operation is used.
    - [int] and [unsigned int] are 16 bits wide on the dsPIC; they are [Z]
      with the wrap-around written out.
    - Every call into a driver or into another module is an [Event] of the
      trace, in program order.  Values returned by drivers are read from an
      input record supplied per tick (per cycle for the GPS task). *)

From Stdlib Require Import ZArith Zquot Bool List Lia.
From Stdlib Require Import Floats.SpecFloat.
Import ListNotations.
Open Scope Z_scope.

(** ** binary32 arithmetic *)

Module F32.

Definition prec : Z := 24.
Definition emax : Z := 128.

Definition float : Type := spec_float.

Definition add : float -> float -> float := SFadd prec emax.
Definition sub : float -> float -> float := SFsub prec emax.
Definition mul : float -> float -> float := SFmul prec emax.
Definition div : float -> float -> float := SFdiv prec emax.
Definition opp : float -> float := SFopp.
Definition fabs : float -> float := SFabs.

(** C's [a < b] and [a > b]: false as soon as one side is a NaN. *)
Definition lt (a b : float) : bool := SFltb a b.
Definition gt (a b : float) : bool := SFltb b a.
Definition le (a b : float) : bool := SFleb a b.

(** Conversion of an integer to [float], as the cast [(float)n] does. *)
Definition of_Z (n : Z) : float := binary_normalize prec emax n 0 false.

(** The decimal literal [n/d] with the suffix [f]: the binary32 value nearest
    to the quotient.  Used only with [n] and [d] that binary32 holds exactly,
    so that the single rounding of [div] is the rounding of the literal. *)
Definition lit (n d : Z) : float := div (of_Z n) (of_Z d).

Definition zero : float := S754_zero false.

(** Truncation toward zero, the integer part a cast to an integer type
    keeps; NaN and the infinities (undefined in C) are mapped to 0. *)
Definition trunc (x : float) : Z :=
  match x with
  | S754_finite s m e => cond_Zopp s (Z.shiftl (Zpos m) e)
  | _ => 0
  end.

End F32.

Abbreviation float := F32.float.

#[global] Arguments F32.add : simpl never.
#[global] Arguments F32.sub : simpl never.
#[global] Arguments F32.mul : simpl never.
#[global] Arguments F32.div : simpl never.
#[global] Arguments F32.of_Z : simpl never.
#[global] Arguments F32.lit : simpl never.
#[global] Arguments F32.lt : simpl never.
#[global] Arguments F32.gt : simpl never.
#[global] Arguments F32.le : simpl never.
#[global] Arguments F32.fabs : simpl never.
#[global] Arguments F32.opp : simpl never.
#[global] Arguments F32.trunc : simpl never.

(** ** 16-bit integers *)

Definition uint16 (n : Z) : Z := n mod 65536.

Definition int16 (n : Z) : Z := (n + 32768) mod 65536 - 32768.

(** C's [%] on [int] truncates toward zero: [Z.rem]. *)
Definition c_rem (a b : Z) : Z := Z.rem a b.

(** ** configuration.h *)

Definition V01J : Z := 1.
Definition V01N : Z := 2.
Definition V01O : Z := 3.

(** The parts of [config], of the build switches and of the collaborators
    that [sensors.c] reads.  [HARDWARE_VERSION] is set once at start-up by
    [configuration_determine_hardware_version]; the neutral offsets are the
    fields of [config.sensors] after their conversion to [float];
    [scp1000_pressure_to_height] is the conversion function of the SCP1000
    driver, which is not part of this translation unit. *)
Record Env : Type := {
  HARDWARE_VERSION : Z;
  ENABLE_QUADROCOPTER : bool;
  F1E_STEERING : bool;
  acc_x_neutral : float;
  acc_y_neutral : float;
  acc_z_neutral : float;
  gyro_x_neutral : float;
  gyro_y_neutral : float;
  gyro_z_neutral : float;
  cruising_speed_ms : float;
  scp1000_pressure_to_height : float -> float -> float
}.

(** ** The shared sensor data (sensors.h, gps/gps.h) *)

(** Modelled from the spec: [enum] of the fix status, [struct gps_info],
    [struct intvector] and [struct SensorData].  Their declarations are in
    [gps/gps.h] and [sensors.h], which are not part of this translation unit;
    the records below hold the fields [sensors.c] reads or writes, raw samples
    and counts as integers, physical quantities as [float], as the design
    document lists them. *)

Inductive gps_status : Type := EMPTY | VOID | ACTIVE.

Definition gps_status_eqb (a b : gps_status) : bool :=
  match a, b with
  | EMPTY, EMPTY | VOID, VOID | ACTIVE, ACTIVE => true
  | _, _ => false
  end.

Record gps_info : Type := {
  status : gps_status;
  latitude_rad : float;
  longitude_rad : float;
  speed_ms : float;
  satellites_in_view : Z
}.

Record intvector : Type := { vx : Z; vy : Z; vz : Z }.

Record SensorData : Type := {
  acc_x_raw : Z; acc_y_raw : Z; acc_z_raw : Z;
  gyro_x_raw : Z; gyro_y_raw : Z; gyro_z_raw : Z;
  idg500_vref : Z;
  acc_x : float; acc_y : float; acc_z : float;
  p : float; q : float; r : float;
  pressure : float;
  temperature : float;
  pressure_height : float;
  vertical_speed : float;
  battery_voltage_10 : float;
  temperature_10 : Z;
  magnetometer_raw : intvector;
  gps : gps_info
}.

(** Field assignments. *)

Definition set_raw (ax ay az gx gy gz vref : Z) (d : SensorData) : SensorData :=
  {| acc_x_raw := ax; acc_y_raw := ay; acc_z_raw := az;
     gyro_x_raw := gx; gyro_y_raw := gy; gyro_z_raw := gz; idg500_vref := vref;
     acc_x := acc_x d; acc_y := acc_y d; acc_z := acc_z d;
     p := p d; q := q d; r := r d;
     pressure := pressure d; temperature := temperature d;
     pressure_height := pressure_height d; vertical_speed := vertical_speed d;
     battery_voltage_10 := battery_voltage_10 d; temperature_10 := temperature_10 d;
     magnetometer_raw := magnetometer_raw d; gps := gps d |}.

Definition set_acc_x_raw v d :=
  set_raw v (acc_y_raw d) (acc_z_raw d) (gyro_x_raw d) (gyro_y_raw d) (gyro_z_raw d) (idg500_vref d) d.
Definition set_acc_y_raw v d :=
  set_raw (acc_x_raw d) v (acc_z_raw d) (gyro_x_raw d) (gyro_y_raw d) (gyro_z_raw d) (idg500_vref d) d.
Definition set_acc_z_raw v d :=
  set_raw (acc_x_raw d) (acc_y_raw d) v (gyro_x_raw d) (gyro_y_raw d) (gyro_z_raw d) (idg500_vref d) d.
Definition set_gyro_x_raw v d :=
  set_raw (acc_x_raw d) (acc_y_raw d) (acc_z_raw d) v (gyro_y_raw d) (gyro_z_raw d) (idg500_vref d) d.
Definition set_gyro_y_raw v d :=
  set_raw (acc_x_raw d) (acc_y_raw d) (acc_z_raw d) (gyro_x_raw d) v (gyro_z_raw d) (idg500_vref d) d.
Definition set_gyro_z_raw v d :=
  set_raw (acc_x_raw d) (acc_y_raw d) (acc_z_raw d) (gyro_x_raw d) (gyro_y_raw d) v (idg500_vref d) d.
Definition set_idg500_vref v d :=
  set_raw (acc_x_raw d) (acc_y_raw d) (acc_z_raw d) (gyro_x_raw d) (gyro_y_raw d) (gyro_z_raw d) v d.

Definition set_scaled (ax ay az rp rq rr : float) (d : SensorData) : SensorData :=
  {| acc_x_raw := acc_x_raw d; acc_y_raw := acc_y_raw d; acc_z_raw := acc_z_raw d;
     gyro_x_raw := gyro_x_raw d; gyro_y_raw := gyro_y_raw d; gyro_z_raw := gyro_z_raw d;
     idg500_vref := idg500_vref d;
     acc_x := ax; acc_y := ay; acc_z := az;
     p := rp; q := rq; r := rr;
     pressure := pressure d; temperature := temperature d;
     pressure_height := pressure_height d; vertical_speed := vertical_speed d;
     battery_voltage_10 := battery_voltage_10 d; temperature_10 := temperature_10 d;
     magnetometer_raw := magnetometer_raw d; gps := gps d |}.

Definition set_acc_x v d := set_scaled v (acc_y d) (acc_z d) (p d) (q d) (r d) d.
Definition set_acc_y v d := set_scaled (acc_x d) v (acc_z d) (p d) (q d) (r d) d.
Definition set_acc_z v d := set_scaled (acc_x d) (acc_y d) v (p d) (q d) (r d) d.
Definition set_p v d := set_scaled (acc_x d) (acc_y d) (acc_z d) v (q d) (r d) d.
Definition set_q v d := set_scaled (acc_x d) (acc_y d) (acc_z d) (p d) v (r d) d.
Definition set_r v d := set_scaled (acc_x d) (acc_y d) (acc_z d) (p d) (q d) v d.

Definition set_baro (pr te he vs ba : float) (t10 : Z) (d : SensorData) : SensorData :=
  {| acc_x_raw := acc_x_raw d; acc_y_raw := acc_y_raw d; acc_z_raw := acc_z_raw d;
     gyro_x_raw := gyro_x_raw d; gyro_y_raw := gyro_y_raw d; gyro_z_raw := gyro_z_raw d;
     idg500_vref := idg500_vref d;
     acc_x := acc_x d; acc_y := acc_y d; acc_z := acc_z d;
     p := p d; q := q d; r := r d;
     pressure := pr; temperature := te;
     pressure_height := he; vertical_speed := vs;
     battery_voltage_10 := ba; temperature_10 := t10;
     magnetometer_raw := magnetometer_raw d; gps := gps d |}.

Definition set_pressure v d :=
  set_baro v (temperature d) (pressure_height d) (vertical_speed d) (battery_voltage_10 d) (temperature_10 d) d.
Definition set_temperature v d :=
  set_baro (pressure d) v (pressure_height d) (vertical_speed d) (battery_voltage_10 d) (temperature_10 d) d.
Definition set_pressure_height v d :=
  set_baro (pressure d) (temperature d) v (vertical_speed d) (battery_voltage_10 d) (temperature_10 d) d.
Definition set_vertical_speed v d :=
  set_baro (pressure d) (temperature d) (pressure_height d) v (battery_voltage_10 d) (temperature_10 d) d.
Definition set_battery_voltage_10 v d :=
  set_baro (pressure d) (temperature d) (pressure_height d) (vertical_speed d) v (temperature_10 d) d.
Definition set_temperature_10 v d :=
  set_baro (pressure d) (temperature d) (pressure_height d) (vertical_speed d) (battery_voltage_10 d) v d.

Definition set_magnetometer_raw (v : intvector) (d : SensorData) : SensorData :=
  {| acc_x_raw := acc_x_raw d; acc_y_raw := acc_y_raw d; acc_z_raw := acc_z_raw d;
     gyro_x_raw := gyro_x_raw d; gyro_y_raw := gyro_y_raw d; gyro_z_raw := gyro_z_raw d;
     idg500_vref := idg500_vref d;
     acc_x := acc_x d; acc_y := acc_y d; acc_z := acc_z d;
     p := p d; q := q d; r := r d;
     pressure := pressure d; temperature := temperature d;
     pressure_height := pressure_height d; vertical_speed := vertical_speed d;
     battery_voltage_10 := battery_voltage_10 d; temperature_10 := temperature_10 d;
     magnetometer_raw := v; gps := gps d |}.

Definition set_gps (g : gps_info) (d : SensorData) : SensorData :=
  {| acc_x_raw := acc_x_raw d; acc_y_raw := acc_y_raw d; acc_z_raw := acc_z_raw d;
     gyro_x_raw := gyro_x_raw d; gyro_y_raw := gyro_y_raw d; gyro_z_raw := gyro_z_raw d;
     idg500_vref := idg500_vref d;
     acc_x := acc_x d; acc_y := acc_y d; acc_z := acc_z d;
     p := p d; q := q d; r := r d;
     pressure := pressure d; temperature := temperature d;
     pressure_height := pressure_height d; vertical_speed := vertical_speed d;
     battery_voltage_10 := battery_voltage_10 d; temperature_10 := temperature_10 d;
     magnetometer_raw := magnetometer_raw d; gps := g |}.

Definition set_status v (g : gps_info) : gps_info :=
  {| status := v; latitude_rad := latitude_rad g; longitude_rad := longitude_rad g;
     speed_ms := speed_ms g; satellites_in_view := satellites_in_view g |}.
Definition set_latitude_rad v (g : gps_info) : gps_info :=
  {| status := status g; latitude_rad := v; longitude_rad := longitude_rad g;
     speed_ms := speed_ms g; satellites_in_view := satellites_in_view g |}.
Definition set_longitude_rad v (g : gps_info) : gps_info :=
  {| status := status g; latitude_rad := latitude_rad g; longitude_rad := v;
     speed_ms := speed_ms g; satellites_in_view := satellites_in_view g |}.
Definition set_speed_ms v (g : gps_info) : gps_info :=
  {| status := status g; latitude_rad := latitude_rad g; longitude_rad := longitude_rad g;
     speed_ms := v; satellites_in_view := satellites_in_view g |}.
Definition set_satellites_in_view v (g : gps_info) : gps_info :=
  {| status := status g; latitude_rad := latitude_rad g; longitude_rad := longitude_rad g;
     speed_ms := speed_ms g; satellites_in_view := v |}.

(** [struct SensorData sensor_data;] has static storage: all zero at power-on.
    The status is taken to start as [EMPTY], which [sensors_gps_task] assigns
    at its start-up in any case. *)
Definition sensor_data_zero : SensorData :=
  {| acc_x_raw := 0; acc_y_raw := 0; acc_z_raw := 0;
     gyro_x_raw := 0; gyro_y_raw := 0; gyro_z_raw := 0; idg500_vref := 0;
     acc_x := F32.zero; acc_y := F32.zero; acc_z := F32.zero;
     p := F32.zero; q := F32.zero; r := F32.zero;
     pressure := F32.zero; temperature := F32.zero;
     pressure_height := F32.zero; vertical_speed := F32.zero;
     battery_voltage_10 := F32.zero; temperature_10 := 0;
     magnetometer_raw := {| vx := 0; vy := 0; vz := 0 |};
     gps := {| status := EMPTY; latitude_rad := F32.zero; longitude_rad := F32.zero;
               speed_ms := F32.zero; satellites_in_view := 0 |} |}.

(** ** Events: the calls that leave [sensors.c], in program order *)

(** A call is recorded and has no effect of its own on the memory modelled
    here; what a driver returns or stores through a pointer comes from the
    inputs below.  In particular [ahrs_filter] only reads the scaled fields. *)

Inductive Event : Type :=
| uart1_puts
| i2c_init
| vTaskDelay (ms : Z)
| vTaskDelayUntil (ms : Z)
| hmc5843_init
| adc_open
| bmp085_init
| scp1000_init
| ahrs_init
| xTaskGetTickCount
| adc_get_channel (n : Z)
| adc_start
| vTaskDelete
| bmp085_read_temp
| bmp085_convert_temp
| bmp085_start_convert_pressure
| bmp085_read_pressure
| bmp085_convert_pressure
| bmp085_start_convert_temp
| scp1000_dataready
| xSemaphoreTake_xSpiSemaphore (taken : bool)
| scp1000_get_pressure
| scp1000_get_temperature
| xSemaphoreGive_xSpiSemaphore
| hmc5843_read
| ahrs_filter (dt : float)
| gluonscript_init
| gps_open_port
| gps_valid_frames_receiving
| gps_config_output
| xSemaphoreTake_xGpsSemaphore (taken : bool)
| gps_update_info
| led2_off
| led2_on
| gluonscript_do.

(** ** What the drivers return *)

(** One tick of [sensors_task].  [bmp085_temp_10_in] and
    [bmp085_pressure_in] are the values [bmp085_convert_temp] and
    [bmp085_convert_pressure] store through their pointer argument. *)
Record TickIn : Type := {
  adc_in : Z -> Z;
  simulation_mode : bool;
  bmp085_temp_10_in : Z;
  bmp085_pressure_in : Z;
  scp1000_dataready_in : bool;
  xSpiSemaphore_free : bool;
  scp1000_pressure_in : float;
  scp1000_temperature_in : float;
  hmc5843_in : intvector
}.

(** One cycle of [sensors_gps_task].  [fix_ready] tells whether the take of
    [xGpsSemaphore] succeeded within 205 ms; [gps_update_info_in] is what the
    NMEA parser does to the [gps] sub-structure it is handed. *)
Record GpsIn : Type := {
  fix_ready : bool;
  gps_update_info_in : gps_info -> gps_info;
  airborne : bool
}.

(** ** Memory: the globals and the locals of the two tasks *)

Record SensorsLocals : Type := {
  l_temperature_10 : Z;
  last_height : float;
  dt_since_last_height : float;
  low_update_counter : Z
}.

Record World : Type := {
  sensor_data : SensorData;
  scale_z_gyro : float;
  sensors_locals : SensorsLocals;
  gps_task_i : Z
}.

Definition with_sensor_data (f : SensorData -> SensorData) (w : World) : World :=
  {| sensor_data := f (sensor_data w); scale_z_gyro := scale_z_gyro w;
     sensors_locals := sensors_locals w; gps_task_i := gps_task_i w |}.
Definition with_scale_z_gyro (v : float) (w : World) : World :=
  {| sensor_data := sensor_data w; scale_z_gyro := v;
     sensors_locals := sensors_locals w; gps_task_i := gps_task_i w |}.
Definition with_sensors_locals (f : SensorsLocals -> SensorsLocals) (w : World) : World :=
  {| sensor_data := sensor_data w; scale_z_gyro := scale_z_gyro w;
     sensors_locals := f (sensors_locals w); gps_task_i := gps_task_i w |}.
Definition with_gps_task_i (v : Z) (w : World) : World :=
  {| sensor_data := sensor_data w; scale_z_gyro := scale_z_gyro w;
     sensors_locals := sensors_locals w; gps_task_i := v |}.

Definition set_l_temperature_10 v (l : SensorsLocals) : SensorsLocals :=
  {| l_temperature_10 := v; last_height := last_height l;
     dt_since_last_height := dt_since_last_height l;
     low_update_counter := low_update_counter l |}.
Definition set_last_height v (l : SensorsLocals) : SensorsLocals :=
  {| l_temperature_10 := l_temperature_10 l; last_height := v;
     dt_since_last_height := dt_since_last_height l;
     low_update_counter := low_update_counter l |}.
Definition set_dt_since_last_height v (l : SensorsLocals) : SensorsLocals :=
  {| l_temperature_10 := l_temperature_10 l; last_height := last_height l;
     dt_since_last_height := v;
     low_update_counter := low_update_counter l |}.
Definition set_low_update_counter v (l : SensorsLocals) : SensorsLocals :=
  {| l_temperature_10 := l_temperature_10 l; last_height := last_height l;
     dt_since_last_height := dt_since_last_height l;
     low_update_counter := v |}.

(** Memory at power-on: static storage is zeroed, [scale_z_gyro = 0.0f]. *)
Definition power_on : World :=
  {| sensor_data := sensor_data_zero; scale_z_gyro := F32.zero;
     sensors_locals := {| l_temperature_10 := 0; last_height := F32.zero;
                          dt_since_last_height := F32.zero; low_update_counter := 0 |};
     gps_task_i := 0 |}.

(** ** A state, trace and exit monad

    A computation runs on the memory, emits events and either returns a value
    or ends the task ([vTaskDelete] of the running task does not return). *)

Record Out (A : Type) : Type := mkOut {
  result : option A;
  world : World;
  trace : list Event
}.
Arguments mkOut {A}.
Arguments result {A}.
Arguments world {A}.
Arguments trace {A}.

Definition M (A : Type) : Type := World -> Out A.

Definition ret {A} (a : A) : M A := fun w => mkOut (Some a) w [].

Definition bind {A B} (m : M A) (f : A -> M B) : M B :=
  fun w =>
    let o := m w in
    match result o with
    | Some a => let o' := f a (world o) in
                mkOut (result o') (world o') (trace o ++ trace o')
    | None => mkOut None (world o) (trace o)
    end.

Notation "x <- m ;; k" := (bind m (fun x => k))
  (at level 61, m at next level, right associativity).
Notation "m ;; k" := (bind m (fun _ => k))
  (at level 61, right associativity).

Definition get : M World := fun w => mkOut (Some w) w [].
Definition modify (f : World -> World) : M unit := fun w => mkOut (Some tt) (f w) [].
Definition emit (e : Event) : M unit := fun w => mkOut (Some tt) w [e].
Definition task_exit {A} : M A := fun w => mkOut None w [].

Definition when (b : bool) (m : M unit) : M unit := if b then m else ret tt.

(** Reading and assigning [sensor_data] and the locals. *)
Definition sd : M SensorData := w <- get ;; ret (sensor_data w).
Definition assign (f : SensorData -> SensorData) : M unit := modify (with_sensor_data f).
Definition locals : M SensorsLocals := w <- get ;; ret (sensors_locals w).
Definition assign_local (f : SensorsLocals -> SensorsLocals) : M unit :=
  modify (with_sensors_locals f).
Definition assign_gps (f : gps_info -> gps_info) : M unit :=
  assign (fun d => set_gps (f (gps d)) d).

(** ** sensors.c: the sensor task *)

(** [#define INVERT_X -1.0] and [static const float acc_value_g = 6600.0f]. *)
Definition INVERT_X : float := F32.of_Z (-1).
Definition acc_value_g : float := F32.of_Z 6600.

(** Modelled from the spec: the macro [MAX] of [common.h], which is not part
    of this translation unit; the design document reads it as the maximum,
    here the usual [((a) > (b) ? (a) : (b))]. *)
Definition MAX (a b : float) : float := if F32.gt a b then a else b.

(** The factors of the two-axis gyroscope, as the source writes them:
    [-0.02518315f*3.14159f/180.0f * INVERT_X] and
    [-0.02538315f*3.14159f/180.0f * INVERT_X]. *)
Definition gyro_x_factor : float :=
  F32.mul (F32.div (F32.mul (F32.opp (F32.lit 2518315 100000000)) (F32.lit 314159 100000))
                   (F32.of_Z 180)) INVERT_X.
Definition gyro_y_factor : float :=
  F32.mul (F32.div (F32.mul (F32.opp (F32.lit 2538315 100000000)) (F32.lit 314159 100000))
                   (F32.of_Z 180)) INVERT_X.

(** The two values [sensors_task] gives [scale_z_gyro]:
    [(-0.02538315f*3.14159f/180.0f)*2.0f] for the IDZ-500 and
    [(0.0062286f*3.14159f/180.0f)] for the ADXRS-613. *)
Definition scale_z_gyro_idz500 : float :=
  F32.mul (F32.div (F32.mul (F32.opp (F32.lit 2538315 100000000)) (F32.lit 314159 100000))
                   (F32.of_Z 180)) (F32.of_Z 2).
Definition scale_z_gyro_adxrs613 : float :=
  F32.div (F32.mul (F32.lit 62286 10000000) (F32.lit 314159 100000)) (F32.of_Z 180).

(** The height test of the legacy path:
    [if (height > -30000.0f && height < 30000.0f) pressure_height = height;]
    as a function of the computed height and of the stored one. *)
Definition gate_height (height stored : float) : float :=
  if F32.gt height (F32.opp (F32.of_Z 30000)) && F32.lt height (F32.of_Z 30000)
  then height else stored.

(** The smoothing of the vertical speed,
    [vertical_speed * 0.8f + (pressure_height - last_height)/dt_since_last_height * 0.2f]. *)
Definition smooth_vertical_speed (v_prev height last dt : float) : float :=
  F32.add (F32.mul v_prev (F32.lit 8 10))
          (F32.mul (F32.div (F32.sub height last) dt) (F32.lit 2 10)).

(** The validity check
    [if (fabs(vertical_speed) > MAX(5.0f, gps.speed_ms)) vertical_speed = 0.0f;]. *)
Definition clamp_vertical_speed (v gps_speed : float) : float :=
  if F32.gt (F32.fabs v) (MAX (F32.of_Z 5) gps_speed) then F32.zero else v.

Section Tasks.

Variable E : Env.

Section SensorsTask.

Variable inp : TickIn.

Definition call_adc_get_channel (n : Z) : M Z :=
  emit (adc_get_channel n) ;; ret (adc_in inp n).

Definition read_raw_sensor_data : M unit :=
  v <- call_adc_get_channel 6 ;; assign (set_acc_x_raw v) ;;
  v <- call_adc_get_channel 1 ;; assign (set_acc_z_raw v) ;;
  v <- call_adc_get_channel 0 ;; assign (set_acc_y_raw v) ;;
  v <- call_adc_get_channel 4 ;; assign (set_gyro_x_raw v) ;;
  v <- call_adc_get_channel 7 ;; assign (set_gyro_y_raw v) ;;
  v <- call_adc_get_channel 5 ;; assign (set_gyro_z_raw v) ;;
  v <- call_adc_get_channel 3 ;; assign (set_idg500_vref v).

Definition scale_raw_sensor_data : M unit :=
  assign (fun d => set_acc_x
    (F32.div (F32.sub (F32.of_Z (acc_x_raw d)) (acc_x_neutral E))
             (F32.mul (F32.opp acc_value_g) INVERT_X)) d) ;;
  assign (fun d => set_acc_y
    (F32.div (F32.sub (F32.of_Z (acc_y_raw d)) (acc_y_neutral E))
             (F32.mul (F32.opp acc_value_g) INVERT_X)) d) ;;
  assign (fun d => set_acc_z
    (F32.div (F32.sub (F32.of_Z (acc_z_raw d)) (acc_z_neutral E))
             (F32.opp acc_value_g)) d) ;;
  assign (fun d => set_p
    (F32.mul (F32.sub (F32.of_Z (gyro_x_raw d)) (gyro_x_neutral E)) gyro_x_factor) d) ;;
  assign (fun d => set_q
    (F32.mul (F32.sub (F32.of_Z (gyro_y_raw d)) (gyro_y_neutral E)) gyro_y_factor) d) ;;
  w <- get ;;
  assign (fun d => set_r
    (F32.mul (F32.sub (F32.of_Z (gyro_z_raw d)) (gyro_z_neutral E)) (scale_z_gyro w)) d).

(** The statements of [sensors_task] before its loop. *)
Definition sensors_task_init : M unit :=
  assign_local (fun _ => {| l_temperature_10 := 200; last_height := F32.zero;
                            dt_since_last_height := F32.zero; low_update_counter := 0 |}) ;;
  emit uart1_puts ;;
  when (ENABLE_QUADROCOPTER E || F1E_STEERING E)
       (emit i2c_init ;; emit (vTaskDelay 20) ;; emit hmc5843_init) ;;
  emit adc_open ;;
  (if HARDWARE_VERSION E >=? V01O
   then emit i2c_init ;; emit bmp085_init
   else emit scp1000_init) ;;
  read_raw_sensor_data ;;
  scale_raw_sensor_data ;;
  emit ahrs_init ;;
  (if HARDWARE_VERSION E >=? V01N
   then modify (with_scale_z_gyro scale_z_gyro_idz500)
   else modify (with_scale_z_gyro scale_z_gyro_adxrs613)) ;;
  emit uart1_puts ;;
  emit xTaskGetTickCount.

(** The newer barometer, phase by phase (lines 138 to 154). *)
Definition bmp085_temperature_phase : M unit :=
  emit bmp085_read_temp ;;
  emit bmp085_convert_temp ;;
  assign (set_temperature_10 (bmp085_temp_10_in inp)) ;;
  assign (fun d => set_temperature (F32.div (F32.of_Z (temperature_10 d)) (F32.of_Z 10)) d) ;;
  emit bmp085_start_convert_pressure.

Definition bmp085_pressure_phase : M unit :=
  emit bmp085_read_pressure ;;
  emit bmp085_convert_pressure ;;
  assign (set_pressure (F32.of_Z (bmp085_pressure_in inp))) ;;
  d <- sd ;;
  let height := scp1000_pressure_to_height E (pressure d) (temperature d) in
  assign (set_pressure_height height) ;;
  emit bmp085_start_convert_temp.

(** The legacy barometer (lines 159 to 179), entered when
    [HARDWARE_VERSION < V01O && scp1000_dataready()] holds. *)
Definition scp1000_update : M unit :=
  emit (xSemaphoreTake_xSpiSemaphore (xSpiSemaphore_free inp)) ;;
  when (xSpiSemaphore_free inp)
       (emit scp1000_get_pressure ;;
        assign (set_pressure (scp1000_pressure_in inp)) ;;
        emit scp1000_get_temperature ;;
        assign (set_temperature (scp1000_temperature_in inp)) ;;
        emit xSemaphoreGive_xSpiSemaphore) ;;
  d <- sd ;;
  assign_local (set_l_temperature_10 (uint16 (uint16 (F32.trunc (temperature d)) * 10))) ;;
  d <- sd ;;
  let height := scp1000_pressure_to_height E (pressure d) (temperature d) in
  assign (fun d => set_pressure_height (gate_height height (pressure_height d)) d) ;;
  l <- locals ;;
  assign (fun d => set_vertical_speed
    (smooth_vertical_speed (vertical_speed d) (pressure_height d)
                           (last_height l) (dt_since_last_height l)) d) ;;
  assign (fun d => set_vertical_speed
    (clamp_vertical_speed (vertical_speed d) (speed_ms (gps d))) d) ;;
  d <- sd ;;
  assign_local (set_last_height (pressure_height d)) ;;
  assign_local (set_dt_since_last_height F32.zero).

(** One turn of the [for( ;; )] loop of [sensors_task], block by block. *)

(** Lines 113 to 123: wait for the period, advance the clock and the
    counter, reset the counter above 65000. *)
Definition tick_wait : M unit :=
  (if ENABLE_QUADROCOPTER E
   then emit (vTaskDelayUntil 4) ;;
        assign_local (fun l => set_dt_since_last_height
                        (F32.add (dt_since_last_height l) (F32.lit 4 1000)) l) ;;
        assign_local (fun l => set_low_update_counter (uint16 (low_update_counter l + 1)) l)
   else emit (vTaskDelayUntil 20) ;;
        assign_local (fun l => set_dt_since_last_height
                        (F32.add (dt_since_last_height l) (F32.lit 2 100)) l) ;;
        assign_local (fun l => set_low_update_counter (uint16 (low_update_counter l + 5)) l)) ;;
  l <- locals ;;
  when (low_update_counter l >? 65000) (assign_local (set_low_update_counter 0)).

(** Lines 132 to 155: the body of [if (low_update_counter % 50 == 0)]. *)
Definition tick_5Hz : M unit :=
  when (simulation_mode inp) (emit vTaskDelete ;; task_exit) ;;
  v <- call_adc_get_channel 8 ;;
  assign (set_battery_voltage_10
            (F32.mul (F32.of_Z v)
                     (F32.div (F32.mul (F32.lit 33 10) (F32.lit 51 10)) (F32.of_Z 6550)))) ;;
  when (HARDWARE_VERSION E >=? V01O)
       (l <- locals ;;
        if (low_update_counter l / 50) mod 2 =? 0
        then bmp085_temperature_phase
        else bmp085_pressure_phase).

(** Lines 159 to 179: the body of the [else]; [&&] asks the SCP1000 only
    on the legacy hardware. *)
Definition tick_scp1000 : M unit :=
  ready <- (if HARDWARE_VERSION E <? V01O
            then emit scp1000_dataready ;; ret (scp1000_dataready_in inp)
            else ret false) ;;
  when ready scp1000_update.

(** Lines 184 to 189, compiled when [ENABLE_QUADROCOPTER || F1E_STEERING]. *)
Definition tick_magnetometer : M unit :=
  when (ENABLE_QUADROCOPTER E || F1E_STEERING E)
       (l <- locals ;;
        when (low_update_counter l mod 25 =? 0)
             (emit hmc5843_read ;; assign (set_magnetometer_raw (hmc5843_in inp)))).

(** Lines 191 to 195. *)
Definition tick_ahrs : M unit :=
  if ENABLE_QUADROCOPTER E
  then emit (ahrs_filter (F32.lit 5 1000))
  else emit (ahrs_filter (F32.lit 2 100)).

Definition sensors_task_tick : M unit :=
  tick_wait ;;
  read_raw_sensor_data ;;
  emit adc_start ;;
  scale_raw_sensor_data ;;
  l <- locals ;;
  (if low_update_counter l mod 50 =? 0 then tick_5Hz else tick_scp1000) ;;
  tick_magnetometer ;;
  tick_ahrs.

End SensorsTask.

(** The loop, run for as many turns as there are inputs. *)
Fixpoint sensors_task_loop (ticks : list TickIn) : M unit :=
  match ticks with
  | [] => ret tt
  | inp :: rest => sensors_task_tick inp ;; sensors_task_loop rest
  end.

Definition sensors_task (init : TickIn) (ticks : list TickIn) : M unit :=
  sensors_task_init init ;; sensors_task_loop ticks.

End Tasks.

(** ** sensors.c: the GPS task *)

Section GpsTask.

Variable E : Env.

Definition gps_i : M Z := w <- get ;; ret (gps_task_i w).
Definition assign_i (v : Z) : M unit := modify (with_gps_task_i v).

(** [for (i = 10; i <= 1000; i *= 2) if (! gps_valid_frames_receiving()) vTaskDelay(i);]
    after its initialisation; [valid_at i] is what
    [gps_valid_frames_receiving] answers in the turn with that [i].  The
    recursion is on a bound of the number of turns. *)
Fixpoint gps_wait_for_output (valid_at : Z -> bool) (turns : nat) : M unit :=
  match turns with
  | O => ret tt
  | S k =>
      i <- gps_i ;;
      if i <=? 1000
      then emit gps_valid_frames_receiving ;;
           when (negb (valid_at i)) (emit (vTaskDelay i)) ;;
           assign_i (int16 (i * 2)) ;;
           gps_wait_for_output valid_at k
      else ret tt
  end.

(** The statements of [sensors_gps_task] before its loop.  Sixteen turns
    are more than the doubling from 10 needs to pass 1000. *)
Definition sensors_gps_task_init (valid_at : Z -> bool) : M unit :=
  assign_i 0 ;;
  emit uart1_puts ;;
  assign_gps (set_status EMPTY) ;;
  assign_gps (set_latitude_rad F32.zero) ;;
  assign_gps (set_longitude_rad F32.zero) ;;
  emit gluonscript_init ;;
  emit gps_open_port ;;
  assign_i 10 ;;
  gps_wait_for_output valid_at 16 ;;
  emit gps_config_output ;;
  emit (vTaskDelay 100) ;;
  emit uart1_puts ;;
  d <- sd ;;
  (if gps_status_eqb (status (gps d)) EMPTY then emit led2_off
   else when (gps_status_eqb (status (gps d)) VOID) (emit led2_on)).

(** One turn of the [for( ;; )] loop of [sensors_gps_task]. *)
Definition sensors_gps_task_cycle (inp : GpsIn) : M unit :=
  emit (xSemaphoreTake_xGpsSemaphore (fix_ready inp)) ;;
  (if fix_ready inp
   then emit gps_update_info ;;
        assign_gps (gps_update_info_in inp) ;;
        i <- gps_i ;; assign_i (int16 (i + 1))
   else assign_gps (set_status EMPTY) ;;
        emit led2_off ;;
        assign_i 0 ;;
        assign_gps (set_satellites_in_view 0)) ;;
  d <- sd ;;
  when ((satellites_in_view (gps d) <? 4) && airborne inp)
       (assign_gps (set_speed_ms (cruising_speed_ms E))) ;;
  i <- gps_i ;;
  when (c_rem i 2 =? 0) (emit gluonscript_do) ;;
  d <- sd ;;
  (if ((c_rem i 6 =? 0) || (c_rem (int16 (i + 1)) 6 =? 0) || (c_rem (int16 (i + 2)) 6 =? 0))
      && gps_status_eqb (status (gps d)) ACTIVE
      && (satellites_in_view (gps d) >? 5)
   then emit led2_off
   else when (negb (gps_status_eqb (status (gps d)) EMPTY)) (emit led2_on)).

Fixpoint sensors_gps_task_loop (cycles : list GpsIn) : M unit :=
  match cycles with
  | [] => ret tt
  | inp :: rest => sensors_gps_task_cycle inp ;; sensors_gps_task_loop rest
  end.

Definition sensors_gps_task (valid_at : Z -> bool) (cycles : list GpsIn) : M unit :=
  sensors_gps_task_init valid_at ;; sensors_gps_task_loop cycles.

End GpsTask.

(** ** Quantities the statements speak of *)

(** The counter step and the clock step of one tick, by build. *)
Definition tick_step (E : Env) : Z := if ENABLE_QUADROCOPTER E then 1 else 5.
Definition tick_period (E : Env) : float :=
  if ENABLE_QUADROCOPTER E then F32.lit 4 1000 else F32.lit 2 100.

(** The counter a tick works with, from the counter the previous tick left. *)
Definition next_counter (E : Env) (c : Z) : Z :=
  if uint16 (c + tick_step E) >? 65000 then 0 else uint16 (c + tick_step E).

(** What [tick_wait] does to the task's variables, and to the world. *)
Definition wait_locals (E : Env) (l : SensorsLocals) : SensorsLocals :=
  set_low_update_counter (next_counter E (low_update_counter l))
    (set_dt_since_last_height (F32.add (dt_since_last_height l) (tick_period E)) l).

Definition after_wait (E : Env) (w : World) : World :=
  with_sensors_locals (wait_locals E) w.

(** The raw samples and the scaled values one acquisition stores. *)
Definition raw_samples (inp : TickIn) (d : SensorData) : SensorData :=
  set_raw (adc_in inp 6) (adc_in inp 0) (adc_in inp 1)
          (adc_in inp 4) (adc_in inp 7) (adc_in inp 5) (adc_in inp 3) d.

Definition scaled (E : Env) (z_gyro : float) (d : SensorData) : SensorData :=
  set_scaled
    (F32.div (F32.sub (F32.of_Z (acc_x_raw d)) (acc_x_neutral E))
             (F32.mul (F32.opp acc_value_g) INVERT_X))
    (F32.div (F32.sub (F32.of_Z (acc_y_raw d)) (acc_y_neutral E))
             (F32.mul (F32.opp acc_value_g) INVERT_X))
    (F32.div (F32.sub (F32.of_Z (acc_z_raw d)) (acc_z_neutral E))
             (F32.opp acc_value_g))
    (F32.mul (F32.sub (F32.of_Z (gyro_x_raw d)) (gyro_x_neutral E)) gyro_x_factor)
    (F32.mul (F32.sub (F32.of_Z (gyro_y_raw d)) (gyro_y_neutral E)) gyro_y_factor)
    (F32.mul (F32.sub (F32.of_Z (gyro_z_raw d)) (gyro_z_neutral E)) z_gyro)
    d.

(** The world and the trace of a tick when it reaches the test of
    [low_update_counter % 50]. *)
Definition acquired (E : Env) (inp : TickIn) (w : World) : World :=
  with_sensor_data (fun d => scaled E (scale_z_gyro w) (raw_samples inp d))
                   (after_wait E w).

Definition acquire_trace (E : Env) : list Event :=
  [vTaskDelayUntil (if ENABLE_QUADROCOPTER E then 4 else 20);
   adc_get_channel 6; adc_get_channel 1; adc_get_channel 0; adc_get_channel 4;
   adc_get_channel 7; adc_get_channel 5; adc_get_channel 3; adc_start].

(** What [scp1000_update] makes of a world. *)
Definition scp1000_world (E : Env) (inp : TickIn) (w : World) : World :=
  let d := sensor_data w in
  let l := sensors_locals w in
  let pr := if xSpiSemaphore_free inp then scp1000_pressure_in inp else pressure d in
  let te := if xSpiSemaphore_free inp then scp1000_temperature_in inp else temperature d in
  let he := gate_height (scp1000_pressure_to_height E pr te) (pressure_height d) in
  let vs := clamp_vertical_speed
              (smooth_vertical_speed (vertical_speed d) he (last_height l)
                                     (dt_since_last_height l))
              (speed_ms (gps d)) in
  {| sensor_data := set_baro pr te he vs (battery_voltage_10 d) (temperature_10 d) d;
     scale_z_gyro := scale_z_gyro w;
     sensors_locals := {| l_temperature_10 := uint16 (uint16 (F32.trunc te) * 10);
                          last_height := he;
                          dt_since_last_height := F32.zero;
                          low_update_counter := low_update_counter l |};
     gps_task_i := gps_task_i w |}.

Definition scp1000_trace (inp : TickIn) : list Event :=
  if xSpiSemaphore_free inp
  then [xSemaphoreTake_xSpiSemaphore true; scp1000_get_pressure;
        scp1000_get_temperature; xSemaphoreGive_xSpiSemaphore]
  else [xSemaphoreTake_xSpiSemaphore false].

(** An outcome with events put in front of its trace. *)
Definition prefix_out {A} (t : list Event) (o : Out A) : Out A :=
  mkOut (result o) (world o) (t ++ trace o).

(** The barometric state: the fields the SCP1000 path writes, the GPS speed
    it reads, and the task's own variables. *)
Definition baro_state (w : World) : float * float * float * float * float * SensorsLocals :=
  (pressure (sensor_data w), temperature (sensor_data w),
   pressure_height (sensor_data w), vertical_speed (sensor_data w),
   speed_ms (gps (sensor_data w)), sensors_locals w).

(** The speed substitution of a GPS cycle (lines 293 and 294). *)
Definition fallback_speed (E : Env) (inp : GpsIn) (g : gps_info) : gps_info :=
  if (satellites_in_view g <? 4) && airborne inp
  then set_speed_ms (cruising_speed_ms E) g else g.

(** What a GPS cycle makes of the [gps] sub-structure and of its counter
    before the speed substitution. *)
Definition gps_after_wait (inp : GpsIn) (g : gps_info) : gps_info :=
  if fix_ready inp then gps_update_info_in inp g
  else set_satellites_in_view 0 (set_status EMPTY g).

Definition i_after_wait (inp : GpsIn) (i : Z) : Z :=
  if fix_ready inp then int16 (i + 1) else 0.

(** The indicator request at the end of a cycle (lines 299 to 302). *)
Definition indicator_events (i : Z) (g : gps_info) : list Event :=
  if ((c_rem i 6 =? 0) || (c_rem (int16 (i + 1)) 6 =? 0) || (c_rem (int16 (i + 2)) 6 =? 0))
     && gps_status_eqb (status g) ACTIVE
     && (satellites_in_view g >? 5)
  then [led2_off]
  else if negb (gps_status_eqb (status g) EMPTY) then [led2_on] else [].

Definition gps_cycle_world (E : Env) (inp : GpsIn) (w : World) : World :=
  with_gps_task_i (i_after_wait inp (gps_task_i w))
    (with_sensor_data
       (fun d => set_gps (fallback_speed E inp (gps_after_wait inp (gps d))) d) w).

Definition gps_cycle_trace (E : Env) (inp : GpsIn) (w : World) : list Event :=
  xSemaphoreTake_xGpsSemaphore (fix_ready inp)
  :: (if fix_ready inp then [gps_update_info] else [led2_off])
  ++ (if c_rem (i_after_wait inp (gps_task_i w)) 2 =? 0 then [gluonscript_do] else [])
  ++ indicator_events (i_after_wait inp (gps_task_i w))
                      (fallback_speed E inp (gps_after_wait inp (gps (sensor_data w)))).

(** The counter of the sensor task. *)
Definition counter_of (w : World) : Z := low_update_counter (sensors_locals w).

(** What belongs to the GPS task: the [gps] sub-structure and its counter. *)
Definition gps_part (w : World) : gps_info * Z := (gps (sensor_data w), gps_task_i w).

(** What does not: everything else, the [gps] sub-structure blanked. *)
Definition sensors_part (w : World) : SensorData * float * SensorsLocals :=
  (set_gps (gps sensor_data_zero) (sensor_data w), scale_z_gyro w, sensors_locals w).



(** [n] clock steps added to [dt0], as [dt_since_last_height] adds them. *)
Fixpoint elapsed_from (E : Env) (dt0 : float) (n : nat) : float :=
  match n with
  | O => dt0
  | S k => F32.add (elapsed_from E dt0 k) (tick_period E)
  end.

Definition elapsed (E : Env) (n : nat) : float := elapsed_from E F32.zero n.

(** The counter [n] ticks after it was [c]. *)
Fixpoint counter_after (E : Env) (n : nat) (c : Z) : Z :=
  match n with
  | O => c
  | S k => next_counter E (counter_after E k c)
  end.

(** A tick of the legacy hardware that neither reaches the SCP1000 update
    nor ends the task: in the 5 Hz branch with the simulation flag clear, or
    outside it with no sample ready.  [c] is the counter before the tick. *)
Definition idle_tick (E : Env) (c : Z) (inp : TickIn) : bool :=
  if next_counter E c mod 50 =? 0
  then negb (simulation_mode inp)
  else negb (scp1000_dataready_in inp).

Fixpoint idle_run (E : Env) (c : Z) (ticks : list TickIn) : bool :=
  match ticks with
  | [] => true
  | inp :: rest => idle_tick E c inp && idle_run E (next_counter E c) rest
  end.

(** [sensor_data.battery_voltage_10] as line 135 computes it. *)
Definition battery_of (inp : TickIn) : float :=
  F32.mul (F32.of_Z (adc_in inp 8))
          (F32.div (F32.mul (F32.lit 33 10) (F32.lit 51 10)) (F32.of_Z 6550)).

(** What the two phases of the newer barometer store, battery included. *)
Definition temperature_phase_data (inp : TickIn) (d : SensorData) : SensorData :=
  set_temperature (F32.div (F32.of_Z (bmp085_temp_10_in inp)) (F32.of_Z 10))
    (set_temperature_10 (bmp085_temp_10_in inp)
       (set_battery_voltage_10 (battery_of inp) d)).

Definition pressure_phase_data (E : Env) (inp : TickIn) (d : SensorData) : SensorData :=
  set_pressure_height
    (scp1000_pressure_to_height E (F32.of_Z (bmp085_pressure_in inp)) (temperature d))
    (set_pressure (F32.of_Z (bmp085_pressure_in inp))
       (set_battery_voltage_10 (battery_of inp) d)).

(** The barometer reads of a trace, in order: one per 5 Hz turn of the newer
    hardware, [bmp085_read_temp] in the temperature phase and
    [bmp085_read_pressure] in the pressure phase. *)
Definition is_bmp085_read (e : Event) : bool :=
  match e with
  | bmp085_read_temp | bmp085_read_pressure => true
  | _ => false
  end.

Definition bmp085_reads (tr : list Event) : list Event := filter is_bmp085_read tr.

Definition same_read (a b : Event) : bool :=
  match a, b with
  | bmp085_read_temp, bmp085_read_temp => true
  | bmp085_read_pressure, bmp085_read_pressure => true
  | _, _ => false
  end.

(** No two neighbours of the list are the same read. *)
Fixpoint alternating (l : list Event) : bool :=
  match l with
  | a :: (b :: _) as rest => negb (same_read a b) && alternating rest
  | _ => true
  end.

Definition is_event (e : Event) (x : Event) : bool :=
  match e, x with
  | gluonscript_do, gluonscript_do => true
  | led2_off, led2_off => true
  | led2_on, led2_on => true
  | vTaskDelete, vTaskDelete => true
  | _, _ => false
  end.

(** How often the post-processing hook is called in a trace. *)
Definition hook_calls (tr : list Event) : nat :=
  length (filter (is_event gluonscript_do) tr).

(** The calls of a tick that reach a device: the ADC, the barometers, the
    SPI token and the magnetometer. *)
Definition is_hardware_access (e : Event) : bool :=
  match e with
  | adc_get_channel _ | adc_start
  | bmp085_read_temp | bmp085_convert_temp | bmp085_start_convert_pressure
  | bmp085_read_pressure | bmp085_convert_pressure | bmp085_start_convert_temp
  | scp1000_dataready | xSemaphoreTake_xSpiSemaphore _
  | scp1000_get_pressure | scp1000_get_temperature | xSemaphoreGive_xSpiSemaphore
  | hmc5843_read => true
  | _ => false
  end.

(** The events of a trace before the first [vTaskDelete]. *)
Fixpoint before_delete (tr : list Event) : list Event :=
  match tr with
  | [] => []
  | vTaskDelete :: _ => []
  | e :: rest => e :: before_delete rest
  end.

Definition with_simulation_mode (b : bool) (inp : TickIn) : TickIn :=
  {| adc_in := adc_in inp; simulation_mode := b;
     bmp085_temp_10_in := bmp085_temp_10_in inp;
     bmp085_pressure_in := bmp085_pressure_in inp;
     scp1000_dataready_in := scp1000_dataready_in inp;
     xSpiSemaphore_free := xSpiSemaphore_free inp;
     scp1000_pressure_in := scp1000_pressure_in inp;
     scp1000_temperature_in := scp1000_temperature_in inp;
     hmc5843_in := hmc5843_in inp |}.

(** ** Concrete boards and inputs, for the examples *)

(** A linearised barometric formula, [(101325 - p) / 12] metres, standing in
    for the conversion of the SCP1000 driver. *)
Definition linear_pressure_to_height (pr te : float) : float :=
  F32.div (F32.sub (F32.of_Z 101325) pr) (F32.of_Z 12).

Definition board (hw : Z) (quad : bool) : Env :=
  {| HARDWARE_VERSION := hw; ENABLE_QUADROCOPTER := quad; F1E_STEERING := false;
     acc_x_neutral := F32.of_Z 32768; acc_y_neutral := F32.of_Z 32768;
     acc_z_neutral := F32.of_Z 32768;
     gyro_x_neutral := F32.of_Z 29000; gyro_y_neutral := F32.of_Z 29000;
     gyro_z_neutral := F32.of_Z 29000;
     cruising_speed_ms := F32.of_Z 12;
     scp1000_pressure_to_height := linear_pressure_to_height |}.

Definition legacy_board : Env := board V01J false.
Definition newer_board : Env := board V01O false.



(** A tick on which the SCP1000 reports [pr] Pa at 20 degrees, the SPI token
    being free or not. *)
Definition tick_in (sim ready free : bool) (pr : float) : TickIn :=
  {| adc_in := fun n => 32768 + n; simulation_mode := sim;
     bmp085_temp_10_in := 215; bmp085_pressure_in := 100125;
     scp1000_dataready_in := ready; xSpiSemaphore_free := free;
     scp1000_pressure_in := pr; scp1000_temperature_in := F32.of_Z 20;
     hmc5843_in := {| vx := 0; vy := 0; vz := 0 |} |}.

Definition quiet_tick : TickIn := tick_in false false true (F32.of_Z 101325).

(** The memory when the loop of [sensors_task] is entered. *)
Definition started (E : Env) : World := world (sensors_task_init E quiet_tick power_on).

(** The memory after the loop of [sensors_task] has run on [ticks]. *)
Definition run_ticks (E : Env) (ticks : list TickIn) (w : World) : World :=
  world (sensors_task_loop E ticks w).

(** A tick with a sample of [pr] Pa ready, the SPI token free or not. *)
Definition sample_tick (free : bool) (pr : float) : TickIn := tick_in false true free pr.

(** 100125 Pa is 100 m for [linear_pressure_to_height], 100124.25 Pa is
    100.0625 m, -258675 Pa is 30000 m. *)
Definition pa_100m : float := F32.of_Z 100125.
Definition pa_100m_0625 : float := F32.sub (F32.of_Z 100125) (F32.lit 3 4).
Definition pa_30000m : float := F32.of_Z (-258675).

(** GPS cycles: a sentence that reports an active fix with [sats] satellites
    at 20 m/s, and a timeout. *)
Definition fix_cycle (sats : Z) : GpsIn :=
  {| fix_ready := true;
     gps_update_info_in := fun g =>
       set_satellites_in_view sats (set_speed_ms (F32.of_Z 20) (set_status ACTIVE g));
     airborne := true |}.

Definition timeout_cycle : GpsIn :=
  {| fix_ready := false; gps_update_info_in := fun g => g; airborne := true |}.

(** The memory when the loop of [sensors_gps_task] is entered, no frame
    having been received during start-up. *)
Definition gps_started : World :=
  world (sensors_gps_task_init (fun _ => false) power_on).

(** ** Relating the world before and after a computation *)

(** [keeps R m]: every run of [m] takes a world to one that [R] relates to
    it, whether [m] returns or ends the task. *)
Definition keeps {A} (R : World -> World -> Prop) (m : M A) : Prop :=
  forall w, R w (world (m w)).

(** The relation used: a view of the world is unchanged. *)
Definition same_on {B} (f : World -> B) : World -> World -> Prop :=
  fun w w' => f w' = f w.

Class Preorder (R : World -> World -> Prop) : Prop := {
  pre_refl : forall w, R w w;
  pre_trans : forall w1 w2 w3, R w1 w2 -> R w2 w3 -> R w1 w3
}.

(** ** Checks on traces and on the memory *)

(** [traces Q m]: the events of every run of [m] satisfy [Q], whether [m]
    returns or ends the task. *)
Definition traces {A} (Q : list Event -> Prop) (m : M A) : Prop :=
  forall w, Q (trace (m w)).

(** Properties of traces that hold of the empty trace and of the
    concatenation of two traces that have them. *)
Class Closed (Q : list Event -> Prop) : Prop := {
  closed_nil : Q [];
  closed_app : forall a b, Q a -> Q b -> Q (a ++ b)
}.

(** Every event of the trace passes the test [p]. *)
Definition all_events (p : Event -> bool) : list Event -> Prop :=
  fun tr => forallb p tr = true.

(** How many events of the trace pass the test [p]. *)
Definition count_events (p : Event -> bool) (tr : list Event) : nat :=
  length (filter p tr).

(** The calls to the BMP085 driver. *)
Definition is_bmp085 (e : Event) : bool :=
  match e with
  | bmp085_init | bmp085_read_temp | bmp085_convert_temp | bmp085_start_convert_pressure
  | bmp085_read_pressure | bmp085_convert_pressure | bmp085_start_convert_temp => true
  | _ => false
  end.

(** The calls that reach the SCP1000 sensor or ask for its bus: its
    initialisation, the data-ready question, the two reads, and the take and
    give of the SPI token.  The conversion [scp1000_pressure_to_height] is
    not among them: it is a function of its two arguments here, it leaves no
    event, and both hardware generations call it (lines 151 and 169). *)
Definition is_scp1000_access (e : Event) : bool :=
  match e with
  | scp1000_init | scp1000_dataready | scp1000_get_pressure | scp1000_get_temperature
  | xSemaphoreTake_xSpiSemaphore _ | xSemaphoreGive_xSpiSemaphore => true
  | _ => false
  end.

(** The calls to the magnetometer driver. *)
Definition is_magnetometer (e : Event) : bool :=
  match e with
  | hmc5843_init | hmc5843_read => true
  | _ => false
  end.

Definition is_adc_start (e : Event) : bool :=
  match e with
  | adc_start => true
  | _ => false
  end.

Definition is_poll (e : Event) : bool :=
  match e with
  | gps_valid_frames_receiving => true
  | _ => false
  end.

(** The use of the SPI token along a trace.  [held] tells whether the task
    holds the token; the result is [None] as soon as the token is taken while
    held, given while not held, or the SCP1000 is read while it is not held,
    and the final [held] otherwise. *)
Fixpoint spi_protocol (held : bool) (tr : list Event) : option bool :=
  match tr with
  | [] => Some held
  | xSemaphoreTake_xSpiSemaphore true :: rest =>
      if held then None else spi_protocol true rest
  | xSemaphoreGive_xSpiSemaphore :: rest =>
      if held then spi_protocol false rest else None
  | scp1000_get_pressure :: rest | scp1000_get_temperature :: rest =>
      if held then spi_protocol true rest else None
  | _ :: rest => spi_protocol held rest
  end.

(** From not held to not held, without a violation. *)
Definition spi_respected (tr : list Event) : Prop :=
  spi_protocol false tr = Some false.

(** The milliseconds of the [vTaskDelay] calls of a trace, added up. *)
Fixpoint delay_total (tr : list Event) : Z :=
  match tr with
  | [] => 0
  | vTaskDelay ms :: rest => ms + delay_total rest
  | _ :: rest => delay_total rest
  end.

(** The events of one turn of the start-up wait of the GPS task, and the
    values [i] takes in it. *)
Definition poll_trace (valid_at : Z -> bool) (i : Z) : list Event :=
  gps_valid_frames_receiving :: (if valid_at i then [] else [vTaskDelay i]).

Definition poll_values : list Z := [10; 20; 40; 80; 160; 320; 640].

(** The inertial part of the memory: raw samples, scaled values and the
    Z gyroscope factor. *)
Definition imu (w : World)
  : (Z * Z * Z * Z * Z * Z * Z) * (float * float * float * float * float * float) * float :=
  let d := sensor_data w in
  ((acc_x_raw d, acc_y_raw d, acc_z_raw d, gyro_x_raw d, gyro_y_raw d, gyro_z_raw d,
    idg500_vref d),
   (acc_x d, acc_y d, acc_z d, p d, q d, r d),
   scale_z_gyro w).

(** The stored height passes the height test of the legacy path. *)
Definition height_plausible (w : World) : Prop :=
  F32.gt (pressure_height (sensor_data w)) (F32.opp (F32.of_Z 30000))
  && F32.lt (pressure_height (sensor_data w)) (F32.of_Z 30000) = true.

(** A property of the memory that, once true, stays true. *)
Definition stays (P : World -> Prop) : World -> World -> Prop :=
  fun w w' => P w -> P w'.

(** Tests on events, negated or narrowed. *)
Definition not_bmp085 (e : Event) : bool := negb (is_bmp085 e).
Definition not_scp1000_access (e : Event) : bool := negb (is_scp1000_access e).
Definition not_magnetometer (e : Event) : bool := negb (is_magnetometer e).
Definition not_adc_start (e : Event) : bool := negb (is_adc_start e).

(** A read of one of the seven channels of the inertial sensors. *)
Definition is_imu_read (e : Event) : bool :=
  match e with
  | adc_get_channel n => negb (n =? 8)
  | _ => false
  end.
Definition not_imu_read (e : Event) : bool := negb (is_imu_read e).

(** The computation returned rather than ended the task. *)
Definition returned {A} (o : Out A) : bool :=
  match result o with
  | Some _ => true
  | None => false
  end.

(** The magnetometer is compiled in. *)
Definition magnetometer_build (E : Env) : bool := ENABLE_QUADROCOPTER E || F1E_STEERING E.

(** The stored vertical speed. *)
Definition vertical_speed_of (w : World) : float := vertical_speed (sensor_data w).

(** The stored magnetometer sample. *)
Definition magnetometer_of (w : World) : intvector := magnetometer_raw (sensor_data w).

(** The simulation flag is clear on every tick of the list. *)
Definition no_simulation (ticks : list TickIn) : bool :=
  forallb (fun inp => negb (simulation_mode inp)) ticks.

(** A fix-ready signal came on every cycle of the list. *)
Definition all_fixes (cycles : list GpsIn) : bool := forallb fix_ready cycles.

(** The memory after the loop of [sensors_gps_task] has run on [cycles]. *)
Definition run_cycles (E : Env) (cycles : list GpsIn) (w : World) : World :=
  world (sensors_gps_task_loop E cycles w).

(** An event other than the deletion of the task. *)
Definition not_delete (e : Event) : bool := negb (is_event vTaskDelete e).

(** The outcome of a computation that ends the task only by deleting it:
    when it returned, no [vTaskDelete] is in its trace; when it did not,
    [vTaskDelete] is its last event and occurs nowhere before. *)
Definition delete_last {A} (o : Out A) : Prop :=
  if returned o
  then forallb not_delete (trace o) = true
  else exists t, trace o = t ++ [vTaskDelete] /\ forallb not_delete t = true.

(** * Properties *)

#[global] Arguments next_counter : simpl never.
#[global] Arguments tick_period : simpl never.
#[global] Arguments gate_height : simpl never.
#[global] Arguments smooth_vertical_speed : simpl never.
#[global] Arguments clamp_vertical_speed : simpl never.
#[global] Arguments uint16 : simpl never.
#[global] Arguments int16 : simpl never.
#[global] Arguments c_rem : simpl never.

(** ** Frame lemmas *)

#[global] Instance same_on_Preorder {B} (f : World -> B) : Preorder (same_on f).
Proof.
  split; unfold same_on.
  - reflexivity.
  - intros w1 w2 w3 H12 H23. congruence.
Qed.

Section Keeps.

Context (R : World -> World -> Prop) `{!Preorder R}.

Lemma keeps_ret {A} (a : A) : keeps R (ret a).
Proof. intro w. apply pre_refl. Qed.

Lemma keeps_emit e : keeps R (emit e).
Proof. intro w. apply pre_refl. Qed.

Lemma keeps_get : keeps R get.
Proof. intro w. apply pre_refl. Qed.

Lemma keeps_task_exit {A} : keeps R (@task_exit A).
Proof. intro w. apply pre_refl. Qed.

Lemma keeps_modify g : (forall w, R w (g w)) -> keeps R (modify g).
Proof. intros H w. apply H. Qed.

Lemma keeps_bind {A C} (m : M A) (k : A -> M C) :
  keeps R m -> (forall a, keeps R (k a)) -> keeps R (bind m k).
Proof.
  intros Hm Hk w. unfold bind.
  destruct (result (m w)) as [a|]; cbn.
  - eapply pre_trans; [apply Hm | apply Hk].
  - apply Hm.
Qed.

Lemma keeps_when b m : keeps R m -> keeps R (when b m).
Proof. intros H. destruct b; [exact H | apply keeps_ret]. Qed.

Lemma keeps_if {A} (b : bool) (m1 m2 : M A) :
  keeps R m1 -> keeps R m2 -> keeps R (if b then m1 else m2).
Proof. intros H1 H2. destruct b; assumption. Qed.

End Keeps.

(** One step through the structure of a computation; an assignment is left
    to [tac]. *)
Ltac keeps_step tac :=
  first [ apply keeps_bind; [ typeclasses eauto | | intro ]
        | apply keeps_when; [ typeclasses eauto | ]
        | apply keeps_if
        | apply keeps_ret; typeclasses eauto
        | apply keeps_emit; typeclasses eauto
        | apply keeps_get; typeclasses eauto
        | apply keeps_task_exit; typeclasses eauto
        | apply keeps_modify; tac ].

(** An assignment that leaves the view alone, by computation. *)
Ltac untouched := idtac; intros [? ? ? ?]; reflexivity.

Ltac unfold_sensors :=
  unfold sensors_task_tick, sensors_task_init, tick_wait, read_raw_sensor_data,
    call_adc_get_channel, scale_raw_sensor_data, tick_5Hz, tick_scp1000,
    scp1000_update, bmp085_temperature_phase, bmp085_pressure_phase,
    tick_magnetometer, tick_ahrs, sd, locals, assign, assign_local.

Ltac unfold_gps :=
  unfold sensors_gps_task_cycle, sensors_gps_task_init, gps_i, assign_i,
    assign_gps, assign, sd.

(** *** The sensor task leaves the GPS part alone *)

Lemma tick_keeps_gps E inp : keeps (same_on gps_part) (sensors_task_tick E inp).
Proof. unfold_sensors. repeat keeps_step untouched. Qed.

Lemma init_keeps_gps E inp : keeps (same_on gps_part) (sensors_task_init E inp).
Proof. unfold_sensors. repeat keeps_step untouched. Qed.

Lemma loop_keeps E (R : World -> World -> Prop) `{!Preorder R} ticks :
  (forall inp, keeps R (sensors_task_tick E inp)) ->
  keeps R (sensors_task_loop E ticks).
Proof.
  intros H. induction ticks as [|inp rest IH]; cbn [sensors_task_loop].
  - apply keeps_ret; assumption.
  - apply keeps_bind; [assumption | apply H | intros _; exact IH].
Qed.

(** *** The GPS task leaves everything else alone *)

Lemma gps_wait_keeps_sensors valid_at turns :
  keeps (same_on sensors_part) (gps_wait_for_output valid_at turns).
Proof.
  induction turns as [|k IH]; cbn [gps_wait_for_output].
  - apply keeps_ret; typeclasses eauto.
  - unfold_gps.
    repeat first [ exact IH | keeps_step untouched ].
Qed.

Lemma gps_init_keeps_sensors valid_at :
  keeps (same_on sensors_part) (sensors_gps_task_init valid_at).
Proof.
  unfold sensors_gps_task_init.
  repeat first [ apply gps_wait_keeps_sensors
               | progress unfold_gps
               | keeps_step untouched ].
Qed.

Lemma gps_cycle_keeps_sensors E inp :
  keeps (same_on sensors_part) (sensors_gps_task_cycle E inp).
Proof. unfold_gps. repeat keeps_step untouched. Qed.

Lemma gps_loop_keeps_sensors E cycles :
  keeps (same_on sensors_part) (sensors_gps_task_loop E cycles).
Proof.
  induction cycles as [|inp rest IH]; cbn [sensors_gps_task_loop].
  - apply keeps_ret; typeclasses eauto.
  - apply keeps_bind; [typeclasses eauto | apply gps_cycle_keeps_sensors | intros _; exact IH].
Qed.

(** C3.  Whatever the sensor task is fed, and for any number of ticks, its
    start-up and its loop leave every field of the [gps] sub-structure
    (status, latitude, longitude, speed, satellites in view) and the fix
    counter of the GPS task as they were; and the GPS task, start-up and any
    number of cycles, leaves every other field of [sensor_data], and the
    sensor task's own variables, as they were.  No field has two writers. *)
Theorem sensors_task_never_writes_gps :
  forall (E : Env) (init : TickIn) (ticks : list TickIn) (w : World),
    let w' := world (sensors_task E init ticks w) in
    status (gps (sensor_data w')) = status (gps (sensor_data w)) /\
    latitude_rad (gps (sensor_data w')) = latitude_rad (gps (sensor_data w)) /\
    longitude_rad (gps (sensor_data w')) = longitude_rad (gps (sensor_data w)) /\
    speed_ms (gps (sensor_data w')) = speed_ms (gps (sensor_data w)) /\
    satellites_in_view (gps (sensor_data w')) = satellites_in_view (gps (sensor_data w)) /\
    gps_task_i w' = gps_task_i w /\
    forall (valid_at : Z -> bool) (cycles : list GpsIn) (v : World),
      sensors_part (world (sensors_gps_task E valid_at cycles v)) = sensors_part v.
Proof.
  intros E init ticks w w'.
  assert (H : gps_part w' = gps_part w).
  { subst w'. unfold sensors_task.
    apply (keeps_bind (same_on gps_part));
      [ apply init_keeps_gps
      | intros _; apply loop_keeps; [typeclasses eauto | apply tick_keeps_gps] ]. }
  unfold gps_part in H. injection H as Hg Hi. rewrite Hg.
  repeat split; try assumption.
  intros valid_at cycles v. unfold sensors_gps_task.
  apply (keeps_bind (same_on sensors_part));
    [ apply gps_init_keeps_sensors | intros _; apply gps_loop_keeps_sensors ].
Qed.

(** ** Running a tick, block by block *)

Lemma bind_run {A B} (m : M A) (k : A -> M B) w a w1 t1 :
  m w = mkOut (Some a) w1 t1 ->
  bind m k w = prefix_out t1 (k a w1).
Proof. intros H. unfold bind, prefix_out. rewrite H. reflexivity. Qed.

Lemma prefix_out_app {A} t1 t2 (o : Out A) :
  prefix_out t1 (prefix_out t2 o) = prefix_out (t1 ++ t2) o.
Proof. unfold prefix_out; cbn. rewrite app_assoc. reflexivity. Qed.


Lemma tick_wait_run E w :
  tick_wait E w =
  mkOut (Some tt) (after_wait E w)
        [vTaskDelayUntil (if ENABLE_QUADROCOPTER E then 4 else 20)].
Proof.
  destruct w as [d z [t lh dt c] i].
  unfold tick_wait, after_wait, wait_locals, next_counter, tick_step, tick_period.
  destruct (ENABLE_QUADROCOPTER E);
    cbn -[Z.gtb Z.add]; unfold with_sensors_locals; cbn -[Z.gtb Z.add];
    match goal with |- context [?a >? 65000] => destruct (a >? 65000) end;
    reflexivity.
Qed.

Lemma read_raw_sensor_data_run inp w :
  read_raw_sensor_data inp w =
  mkOut (Some tt) (with_sensor_data (raw_samples inp) w)
        [adc_get_channel 6; adc_get_channel 1; adc_get_channel 0; adc_get_channel 4;
         adc_get_channel 7; adc_get_channel 5; adc_get_channel 3].
Proof. reflexivity. Qed.

Lemma scale_raw_sensor_data_run E w :
  scale_raw_sensor_data E w =
  mkOut (Some tt) (with_sensor_data (scaled E (scale_z_gyro w)) w) [].
Proof. reflexivity. Qed.

(** The tick up to its branch, and what is left of it. *)
Lemma sensors_task_tick_run E inp w :
  sensors_task_tick E inp w =
  prefix_out (acquire_trace E)
    (((if next_counter E (low_update_counter (sensors_locals w)) mod 50 =? 0
       then tick_5Hz E inp else tick_scp1000 E inp) ;;
      tick_magnetometer E inp ;; tick_ahrs E) (acquired E inp w)).
Proof.
  unfold sensors_task_tick.
  rewrite (bind_run _ _ _ _ _ _ (tick_wait_run E w)).
  rewrite (bind_run _ _ _ _ _ _ (read_raw_sensor_data_run inp _)).
  rewrite prefix_out_app.
  reflexivity.
Qed.

Lemma scp1000_update_run E inp w :
  scp1000_update E inp w =
  mkOut (Some tt) (scp1000_world E inp w) (scp1000_trace inp).
Proof.
  unfold scp1000_update, scp1000_world, scp1000_trace.
  destruct (xSpiSemaphore_free inp); reflexivity.
Qed.

(** The end of a tick: magnetometer and attitude filter. *)

Lemma tick_end_keeps_baro E inp :
  keeps (same_on baro_state) (tick_magnetometer E inp ;; tick_ahrs E).
Proof.
  unfold tick_magnetometer, tick_ahrs, locals, assign.
  repeat keeps_step untouched.
Qed.

Lemma tick_end_returns E inp w :
  result ((tick_magnetometer E inp ;; tick_ahrs E) w) = Some tt.
Proof.
  unfold tick_magnetometer, tick_ahrs, bind, when, locals, assign; cbn.
  destruct (ENABLE_QUADROCOPTER E), (F1E_STEERING E); cbn;
    try destruct (low_update_counter (sensors_locals w) mod 25 =? 0); reflexivity.
Qed.

(** The SCP1000 branch on the legacy hardware. *)

Lemma tick_scp1000_ready E inp w :
  (HARDWARE_VERSION E <? V01O) = true ->
  scp1000_dataready_in inp = true ->
  tick_scp1000 E inp w =
  mkOut (Some tt) (scp1000_world E inp w) (scp1000_dataready :: scp1000_trace inp).
Proof.
  intros Hhw Hr. unfold tick_scp1000. rewrite Hhw.
  rewrite (bind_run _ _ w (scp1000_dataready_in inp) w [scp1000_dataready])
    by reflexivity.
  rewrite Hr. unfold when. rewrite scp1000_update_run. reflexivity.
Qed.

Lemma tick_scp1000_not_ready E inp w :
  (HARDWARE_VERSION E <? V01O) = true ->
  scp1000_dataready_in inp = false ->
  tick_scp1000 E inp w = mkOut (Some tt) w [scp1000_dataready].
Proof.
  intros Hhw Hr. unfold tick_scp1000. rewrite Hhw.
  rewrite (bind_run _ _ w (scp1000_dataready_in inp) w [scp1000_dataready])
    by reflexivity.
  rewrite Hr. reflexivity.
Qed.

Lemma tick_scp1000_newer E inp w :
  (HARDWARE_VERSION E <? V01O) = false ->
  tick_scp1000 E inp w = mkOut (Some tt) w [].
Proof. intros Hhw. unfold tick_scp1000. rewrite Hhw. reflexivity. Qed.

(** A tick of the legacy hardware that takes the SCP1000 path. *)
Lemma tick_on_scp1000_path E inp w :
  (HARDWARE_VERSION E <? V01O) = true ->
  (next_counter E (low_update_counter (sensors_locals w)) mod 50 =? 0) = false ->
  scp1000_dataready_in inp = true ->
  sensors_task_tick E inp w =
  prefix_out (acquire_trace E ++ scp1000_dataready :: scp1000_trace inp)
    ((tick_magnetometer E inp ;; tick_ahrs E) (scp1000_world E inp (acquired E inp w))).
Proof.
  intros Hhw Hc Hr.
  rewrite sensors_task_tick_run, Hc.
  rewrite (bind_run _ _ _ _ _ _ (tick_scp1000_ready E inp _ Hhw Hr)).
  apply prefix_out_app.
Qed.

Lemma baro_state_on_scp1000_path E inp w :
  (HARDWARE_VERSION E <? V01O) = true ->
  (next_counter E (low_update_counter (sensors_locals w)) mod 50 =? 0) = false ->
  scp1000_dataready_in inp = true ->
  baro_state (world (sensors_task_tick E inp w)) =
  baro_state (scp1000_world E inp (acquired E inp w)).
Proof.
  intros Hhw Hc Hr. rewrite (tick_on_scp1000_path E inp w Hhw Hc Hr).
  apply tick_end_keeps_baro.
Qed.

Ltac bool_hyps :=
  repeat match goal with
  | H : _ < _ |- _ => apply Z.ltb_lt in H
  | H : _ >= _ |- _ => apply Z.geb_ge in H
  | H : _ <> _ :> Z |- _ => apply Z.eqb_neq in H
  | H : _ = _ :> Z |- _ => apply Z.eqb_eq in H
  end.


(** C10.  On the legacy hardware, on a tick outside the 5 Hz branch on which
    the SCP1000 has a sample ready and the take of the SPI token fails, the
    task returns normally, pressure and temperature are the stale ones, and
    yet: the height is recomputed from them and put through the height test,
    the vertical speed is smoothed and clamped with the clock accumulated
    so far, [last_height] takes the stored height and the clock
    [dt_since_last_height] is set back to zero. *)
Theorem contention_tick_still_updates_vertical_speed :
  forall (E : Env) (inp : TickIn) (w : World),
    HARDWARE_VERSION E < V01O ->
    next_counter E (low_update_counter (sensors_locals w)) mod 50 <> 0 ->
    scp1000_dataready_in inp = true ->
    xSpiSemaphore_free inp = false ->
    let d := sensor_data w in
    let l := sensors_locals w in
    let o := sensors_task_tick E inp w in
    let d' := sensor_data (world o) in
    let l' := sensors_locals (world o) in
    result o = Some tt /\
    pressure d' = pressure d /\
    temperature d' = temperature d /\
    pressure_height d' =
      gate_height (scp1000_pressure_to_height E (pressure d) (temperature d))
                  (pressure_height d) /\
    vertical_speed d' =
      clamp_vertical_speed
        (smooth_vertical_speed (vertical_speed d) (pressure_height d') (last_height l)
                               (F32.add (dt_since_last_height l) (tick_period E)))
        (speed_ms (gps d)) /\
    last_height l' = pressure_height d' /\
    dt_since_last_height l' = F32.zero.
Proof.
  intros E inp w Hhw Hc Hr Hs d l o d' l'. subst d l o d' l'.
  bool_hyps.
  pose proof (baro_state_on_scp1000_path E inp w Hhw Hc Hr) as B.
  unfold baro_state, scp1000_world in B. rewrite Hs in B. cbn in B.
  injection B as Bp Bt Bh Bv _ Bl.
  split.
  { rewrite (tick_on_scp1000_path E inp w Hhw Hc Hr). apply tick_end_returns. }
  rewrite Bp, Bt, Bh, Bv, Bl. cbn. repeat split; reflexivity.
Qed.

(** The 5 Hz branch. *)

Lemma legacy_not_newer E :
  (HARDWARE_VERSION E <? V01O) = true -> (HARDWARE_VERSION E >=? V01O) = false.
Proof. intros H. apply Z.ltb_lt in H. rewrite Z.geb_leb. apply Z.leb_gt. exact H. Qed.

Lemma tick_5Hz_simulation E inp w :
  simulation_mode inp = true ->
  tick_5Hz E inp w = mkOut None w [vTaskDelete].
Proof. intros Hs. unfold tick_5Hz. rewrite Hs. reflexivity. Qed.

Lemma tick_5Hz_legacy E inp w :
  simulation_mode inp = false ->
  (HARDWARE_VERSION E >=? V01O) = false ->
  tick_5Hz E inp w =
  mkOut (Some tt) (with_sensor_data (set_battery_voltage_10 (battery_of inp)) w)
        [adc_get_channel 8].
Proof. intros Hs Hhw. unfold tick_5Hz. rewrite Hs, Hhw. reflexivity. Qed.

Lemma tick_5Hz_temperature E inp w :
  simulation_mode inp = false ->
  (HARDWARE_VERSION E >=? V01O) = true ->
  ((low_update_counter (sensors_locals w) / 50) mod 2 =? 0) = true ->
  tick_5Hz E inp w =
  mkOut (Some tt) (with_sensor_data (temperature_phase_data inp) w)
        [adc_get_channel 8; bmp085_read_temp; bmp085_convert_temp;
         bmp085_start_convert_pressure].
Proof.
  intros Hs Hhw Hp. unfold tick_5Hz. rewrite Hs, Hhw.
  cbv beta iota zeta delta
    [bind when ret emit modify get locals assign call_adc_get_channel
     result world trace app];
  cbn [sensors_locals with_sensor_data].
  rewrite Hp. reflexivity.
Qed.

Lemma tick_5Hz_pressure E inp w :
  simulation_mode inp = false ->
  (HARDWARE_VERSION E >=? V01O) = true ->
  ((low_update_counter (sensors_locals w) / 50) mod 2 =? 0) = false ->
  tick_5Hz E inp w =
  mkOut (Some tt) (with_sensor_data (pressure_phase_data E inp) w)
        [adc_get_channel 8; bmp085_read_pressure; bmp085_convert_pressure;
         bmp085_start_convert_temp].
Proof.
  intros Hs Hhw Hp. unfold tick_5Hz. rewrite Hs, Hhw.
  cbv beta iota zeta delta
    [bind when ret emit modify get locals assign call_adc_get_channel
     result world trace app];
  cbn [sensors_locals with_sensor_data].
  rewrite Hp. reflexivity.
Qed.


(** ** The legacy barometer *)

(** A tick that does not reach the SCP1000 update. *)
Lemma idle_tick_run E inp w :
  (HARDWARE_VERSION E <? V01O) = true ->
  idle_tick E (low_update_counter (sensors_locals w)) inp = true ->
  result (sensors_task_tick E inp w) = Some tt /\
  baro_state (world (sensors_task_tick E inp w)) = baro_state (after_wait E w).
Proof.
  intros Hhw Hi. unfold idle_tick in Hi. rewrite sensors_task_tick_run.
  destruct (next_counter E (low_update_counter (sensors_locals w)) mod 50 =? 0).
  - apply negb_true_iff in Hi.
    rewrite (bind_run _ _ _ _ _ _
               (tick_5Hz_legacy E inp _ Hi (legacy_not_newer E Hhw))).
    split; [apply tick_end_returns | ].
    cbn [prefix_out world]. rewrite (tick_end_keeps_baro E inp _). reflexivity.
  - apply negb_true_iff in Hi.
    rewrite (bind_run _ _ _ _ _ _ (tick_scp1000_not_ready E inp _ Hhw Hi)).
    split; [apply tick_end_returns | ].
    cbn [prefix_out world]. rewrite (tick_end_keeps_baro E inp _). reflexivity.
Qed.

Lemma iter_wait_counter E n l :
  low_update_counter (Nat.iter n (wait_locals E) l)
  = counter_after E n (low_update_counter l).
Proof.
  induction n as [|n IH]; cbn [Nat.iter counter_after]; [reflexivity | ].
  rewrite <- IH. reflexivity.
Qed.

Lemma iter_wait_dt E n l :
  dt_since_last_height (Nat.iter n (wait_locals E) l)
  = elapsed_from E (dt_since_last_height l) n.
Proof.
  induction n as [|n IH]; cbn [Nat.iter elapsed_from]; [reflexivity | ].
  rewrite <- IH. reflexivity.
Qed.

Lemma iter_wait_last_height E n l :
  last_height (Nat.iter n (wait_locals E) l) = last_height l.
Proof.
  induction n as [|n IH]; cbn [Nat.iter]; [reflexivity | ].
  rewrite <- IH. reflexivity.
Qed.

Lemma iter_shift {A} (f : A -> A) n x : Nat.iter n f (f x) = f (Nat.iter n f x).
Proof.
  induction n as [|n IH]; [reflexivity | ].
  rewrite !Nat.iter_succ, IH. reflexivity.
Qed.

(** A run of such ticks only advances the clock and the counter. *)
Lemma idle_run_state E ticks :
  (HARDWARE_VERSION E <? V01O) = true ->
  forall w,
    idle_run E (low_update_counter (sensors_locals w)) ticks = true ->
    result (sensors_task_loop E ticks w) = Some tt /\
    baro_state (world (sensors_task_loop E ticks w)) =
    (pressure (sensor_data w), temperature (sensor_data w),
     pressure_height (sensor_data w), vertical_speed (sensor_data w),
     speed_ms (gps (sensor_data w)),
     Nat.iter (length ticks) (wait_locals E) (sensors_locals w)).
Proof.
  intros Hhw. induction ticks as [|inp rest IH]; intros w Hrun.
  - split; reflexivity.
  - cbn [idle_run] in Hrun. apply andb_true_iff in Hrun as [Hi Hrest].
    destruct (idle_tick_run E inp w Hhw Hi) as [Hres Hst].
    cbn [sensors_task_loop length]. unfold bind. rewrite Hres. cbn [result world].
    unfold baro_state in Hst. cbn in Hst.
    injection Hst as Hp Ht Hh Hv Hg Hl.
    assert (Hc : low_update_counter (sensors_locals (world (sensors_task_tick E inp w)))
                 = next_counter E (low_update_counter (sensors_locals w))).
    { rewrite Hl. reflexivity. }
    rewrite <- Hc in Hrest.
    destruct (IH _ Hrest) as [Hres' Hst'].
    split; [exact Hres' | ].
    rewrite Hst', Hp, Ht, Hh, Hv, Hg, Hl.
    rewrite iter_shift. reflexivity.
Qed.












(** The fact about the conversion function cannot be dropped.  With
    [linear_pressure_to_height], which gives 8443.75 m for the zeros of
    power-on, a height that passes the height test, the first tick with a
    sample ready stores that height, token or no token: the stored height
    goes from 0 to 8443.75 although nothing was read from the sensor. *)
Lemma accepted_power_on_height_is_written :
  let E := legacy_board in
  let inp := sample_tick false pa_100m in
  let w := started E in
  let o := sensors_task_tick E inp w in
  HARDWARE_VERSION E < V01O /\
  scp1000_dataready_in inp = true /\
  xSpiSemaphore_free inp = false /\
  In (xSemaphoreTake_xSpiSemaphore false) (trace o) /\
  pressure (sensor_data (world o)) = pressure (sensor_data w) /\
  temperature (sensor_data (world o)) = temperature (sensor_data w) /\
  pressure_height (sensor_data w) = F32.zero /\
  pressure_height (sensor_data (world o)) = F32.lit 844375 100 /\
  pressure_height (sensor_data (world o)) <> pressure_height (sensor_data w).
Proof.
  cbv zeta.
  split; [reflexivity | ].
  split; [reflexivity | ].
  split; [reflexivity | ].
  split; [vm_compute; tauto | ].
  split; [vm_compute; reflexivity | ].
  split; [vm_compute; reflexivity | ].
  split; [vm_compute; reflexivity | ].
  split; [vm_compute; reflexivity | ].
  vm_compute. discriminate.
Qed.

(** An instance: the vertical speed goes from 0.625 to 0.5 and the clock back
    to zero on a tick that read nothing from the sensor. *)
Lemma contention_tick_still_updates_vertical_speed_witness :
  let E := legacy_board in
  let inp := sample_tick false pa_100m in
  let w := run_ticks E [sample_tick true pa_100m; sample_tick false pa_100m;
                        sample_tick true pa_100m_0625] (started E) in
  let o := sensors_task_tick E inp w in
  (HARDWARE_VERSION E < V01O /\
   next_counter E (low_update_counter (sensors_locals w)) mod 50 <> 0 /\
   scp1000_dataready_in inp = true /\
   xSpiSemaphore_free inp = false) /\
  vertical_speed (sensor_data w) = F32.lit 5 8 /\
  vertical_speed (sensor_data (world o)) = F32.lit 1 2 /\
  dt_since_last_height (sensors_locals (world o)) = F32.zero /\
  pressure (sensor_data (world o)) = pressure (sensor_data w).
Proof.
  cbv zeta.
  assert (H1 : HARDWARE_VERSION legacy_board < V01O) by reflexivity.
  assert (H2 : next_counter legacy_board
                 (low_update_counter (sensors_locals
                    (run_ticks legacy_board
                       [sample_tick true pa_100m; sample_tick false pa_100m;
                        sample_tick true pa_100m_0625] (started legacy_board)))) mod 50 <> 0)
    by (vm_compute; discriminate).
  assert (H3 : scp1000_dataready_in (sample_tick false pa_100m) = true) by reflexivity.
  assert (H4 : xSpiSemaphore_free (sample_tick false pa_100m) = false) by reflexivity.
  split; [repeat split; assumption | ].
  pose proof (contention_tick_still_updates_vertical_speed legacy_board _ _ H1 H2 H3 H4)
    as (_ & Hp & _ & _ & Hv & _ & Hdt).
  split; [vm_compute; reflexivity | ].
  split; [rewrite Hv; vm_compute; reflexivity | ].
  split; [exact Hdt | exact Hp].
Defined.

(** C5 (corrected form).  On every SCP1000 update of the legacy hardware, with
    the token taken or not, the stored height becomes the computed height
    when that height is strictly above -30000 and strictly below 30000, and
    stays what it was otherwise, the two bounds and NaN included; a computed
    31000 leaves it unchanged, a computed 100 sets it to 100. *)
Theorem scp1000_update_gates_height :
  forall (E : Env) (inp : TickIn) (w : World),
    HARDWARE_VERSION E < V01O ->
    next_counter E (low_update_counter (sensors_locals w)) mod 50 <> 0 ->
    scp1000_dataready_in inp = true ->
    let d := sensor_data w in
    let pr := if xSpiSemaphore_free inp then scp1000_pressure_in inp else pressure d in
    let te := if xSpiSemaphore_free inp then scp1000_temperature_in inp else temperature d in
    let height := scp1000_pressure_to_height E pr te in
    let d' := sensor_data (world (sensors_task_tick E inp w)) in
    pressure_height d' =
      (if F32.gt height (F32.opp (F32.of_Z 30000)) && F32.lt height (F32.of_Z 30000)
       then height else pressure_height d) /\
    (height = F32.of_Z 31000 -> pressure_height d' = pressure_height d) /\
    (height = F32.of_Z 100 -> pressure_height d' = F32.of_Z 100).
Proof.
  intros E inp w Hhw Hc Hr d pr te height d'.
  subst d pr te height d'. bool_hyps.
  pose proof (baro_state_on_scp1000_path E inp w Hhw Hc Hr) as B.
  unfold baro_state, scp1000_world in B. cbn in B.
  injection B as _ _ Bh _ _ _. rewrite Bh. unfold gate_height.
  split; [reflexivity | ].
  split; intros ->; reflexivity.
Qed.

(** An instance: a sample of 100125 Pa, 100 m. *)
Lemma scp1000_update_gates_height_witness :
  let E := legacy_board in
  let inp := sample_tick true pa_100m in
  let w := started E in
  (HARDWARE_VERSION E < V01O /\
   next_counter E (low_update_counter (sensors_locals w)) mod 50 <> 0 /\
   scp1000_dataready_in inp = true) /\
  scp1000_pressure_to_height E (scp1000_pressure_in inp) (scp1000_temperature_in inp)
    = F32.of_Z 100 /\
  pressure_height (sensor_data (world (sensors_task_tick E inp w))) = F32.of_Z 100.
Proof.
  cbv zeta.
  assert (H1 : HARDWARE_VERSION legacy_board < V01O) by reflexivity.
  assert (H2 : next_counter legacy_board
                 (low_update_counter (sensors_locals (started legacy_board))) mod 50 <> 0)
    by (vm_compute; discriminate).
  assert (H3 : scp1000_dataready_in (sample_tick true pa_100m) = true) by reflexivity.
  assert (H4 : scp1000_pressure_to_height legacy_board
                 (scp1000_pressure_in (sample_tick true pa_100m))
                 (scp1000_temperature_in (sample_tick true pa_100m)) = F32.of_Z 100)
    by (vm_compute; reflexivity).
  split; [repeat split; assumption | ].
  split; [exact H4 | ].
  exact (proj2 (proj2 (scp1000_update_gates_height legacy_board _ _ H1 H2 H3)) H4).
Defined.

(** C5 as the design document words it fails at the bound: a computed height
    of exactly 30000 lies in [-30000, 30000] and is discarded all the same. *)
Lemma height_30000_is_discarded :
  let E := legacy_board in
  let inp := sample_tick true pa_30000m in
  let w := started E in
  let height := scp1000_pressure_to_height E (scp1000_pressure_in inp)
                                             (scp1000_temperature_in inp) in
  let d' := sensor_data (world (sensors_task_tick E inp w)) in
  In (xSemaphoreTake_xSpiSemaphore true) (trace (sensors_task_tick E inp w)) /\
  pressure d' = scp1000_pressure_in inp /\
  height = F32.of_Z 30000 /\
  F32.le (F32.opp (F32.of_Z 30000)) height && F32.le height (F32.of_Z 30000) = true /\
  pressure_height d' = pressure_height (sensor_data w) /\
  pressure_height d' <> height.
Proof.
  cbv zeta.
  split; [vm_compute; tauto | ].
  split; [vm_compute; reflexivity | ].
  split; [vm_compute; reflexivity | ].
  split; [vm_compute; reflexivity | ].
  split; [vm_compute; reflexivity | ].
  vm_compute. discriminate.
Qed.

(** C4 (corrected form).  On the legacy hardware, take any world, let any
    number of ticks pass that neither reach the SCP1000 update nor end the
    task, then a tick outside the 5 Hz branch on which a sample is ready and
    the SPI token is taken.  That tick stores the new pressure and
    temperature, puts their height through the height test, and stores as
    vertical speed [0.8 v + 0.2 (height - last_height) / dt] (in binary32, in
    the order of the source), or 0 when the absolute value of that exceeds
    [MAX(5, gps.speed_ms)]; [dt] is the clock found at the start plus one
    period per tick since, and it is zero again after the update.  The clock
    is zero after every tick that reaches the SCP1000 update, with the token
    or without, so [dt]
    is the time since the last tick on which a sample was ready.  With a GPS
    speed of 2, a computed 8 stores 0 and a computed 3 stores 3. *)
Theorem scp1000_update_vertical_speed :
  forall (E : Env) (ticks : list TickIn) (inp : TickIn) (w : World),
    HARDWARE_VERSION E < V01O ->
    idle_run E (low_update_counter (sensors_locals w)) ticks = true ->
    next_counter E (counter_after E (length ticks)
                      (low_update_counter (sensors_locals w))) mod 50 <> 0 ->
    scp1000_dataready_in inp = true ->
    xSpiSemaphore_free inp = true ->
    let d := sensor_data w in
    let l := sensors_locals w in
    let o := sensors_task_tick E inp (run_ticks E ticks w) in
    let d' := sensor_data (world o) in
    let l' := sensors_locals (world o) in
    result o = Some tt /\
    pressure d' = scp1000_pressure_in inp /\
    temperature d' = scp1000_temperature_in inp /\
    pressure_height d' =
      gate_height (scp1000_pressure_to_height E (pressure d') (temperature d'))
                  (pressure_height d) /\
    vertical_speed d' =
      clamp_vertical_speed
        (smooth_vertical_speed
           (vertical_speed d) (pressure_height d') (last_height l)
           (elapsed_from E (dt_since_last_height l) (S (length ticks))))
        (speed_ms (gps d)) /\
    last_height l' = pressure_height d' /\
    dt_since_last_height l' = F32.zero /\
    clamp_vertical_speed (F32.of_Z 8) (F32.of_Z 2) = F32.zero /\
    clamp_vertical_speed (F32.of_Z 3) (F32.of_Z 2) = F32.of_Z 3.
Proof.
  intros E ticks inp w Hhw Hrun Hc Hr Hs d l o d' l'. subst d l o d' l'.
  apply Z.ltb_lt in Hhw.
  destruct (idle_run_state E ticks Hhw w Hrun) as [_ Hst].
  fold (run_ticks E ticks w) in Hst.
  unfold baro_state in Hst. injection Hst as Hp Ht Hh Hv Hg Hl.
  rewrite <- (iter_wait_counter E), <- Hl in Hc. apply Z.eqb_neq in Hc.
  pose proof (baro_state_on_scp1000_path E inp _ Hhw Hc Hr) as B.
  unfold baro_state, scp1000_world in B. rewrite Hs in B. cbn in B.
  injection B as Bp Bt Bh Bv _ Bl.
  split.
  { rewrite (tick_on_scp1000_path E inp _ Hhw Hc Hr). apply tick_end_returns. }
  rewrite Bp, Bt, Bh, Bv, Bl. cbn.
  rewrite Hh, Hv, Hg, Hl.
  rewrite iter_wait_last_height, iter_wait_dt.
  repeat split; reflexivity.
Qed.

(** An instance: an update, one tick without a sample, an update 0.0625 m
    higher; two periods, 0.3125 m/s. *)
Lemma scp1000_update_vertical_speed_witness :
  let E := legacy_board in
  let w := run_ticks E [sample_tick true pa_100m] (started E) in
  let ticks := [quiet_tick] in
  let inp := sample_tick true pa_100m_0625 in
  let o := sensors_task_tick E inp (run_ticks E ticks w) in
  (HARDWARE_VERSION E < V01O /\
   idle_run E (low_update_counter (sensors_locals w)) ticks = true /\
   next_counter E (counter_after E (length ticks)
                     (low_update_counter (sensors_locals w))) mod 50 <> 0 /\
   scp1000_dataready_in inp = true /\
   xSpiSemaphore_free inp = true) /\
  pressure_height (sensor_data w) = F32.of_Z 100 /\
  dt_since_last_height (sensors_locals w) = F32.zero /\
  pressure_height (sensor_data (world o)) = F32.lit 1601 16 /\
  vertical_speed (sensor_data (world o)) = F32.lit 5 16 /\
  dt_since_last_height (sensors_locals (world o)) = F32.zero.
Proof.
  cbv zeta.
  assert (H1 : HARDWARE_VERSION legacy_board < V01O) by reflexivity.
  assert (H2 : idle_run legacy_board
                 (low_update_counter (sensors_locals
                    (run_ticks legacy_board [sample_tick true pa_100m]
                       (started legacy_board)))) [quiet_tick] = true)
    by (vm_compute; reflexivity).
  assert (H3 : next_counter legacy_board
                 (counter_after legacy_board (length [quiet_tick])
                    (low_update_counter (sensors_locals
                       (run_ticks legacy_board [sample_tick true pa_100m]
                          (started legacy_board))))) mod 50 <> 0)
    by (vm_compute; discriminate).
  assert (H4 : scp1000_dataready_in (sample_tick true pa_100m_0625) = true) by reflexivity.
  assert (H5 : xSpiSemaphore_free (sample_tick true pa_100m_0625) = true) by reflexivity.
  split; [repeat split; assumption | ].
  pose proof (scp1000_update_vertical_speed legacy_board _ _ _ H1 H2 H3 H4 H5)
    as (_ & Hp & Ht & Hh & Hv & _ & Hdt & _).
  split; [vm_compute; reflexivity | ].
  split; [vm_compute; reflexivity | ].
  split; [rewrite Hh, Hp, Ht; vm_compute; reflexivity | ].
  split; [rewrite Hv, Hh, Hp, Ht; vm_compute; reflexivity | exact Hdt].
Defined.

(** C4 as the design document words it fails on the clock.  Three ticks in
    a row find a sample ready; the SPI token is taken on the second one only.
    When the third tick updates, two periods have passed since the last
    successful update (the first tick) and one since the last tick with a
    sample ready; the stored vertical speed is 0.625, the value for one
    period, not the 0.3125 of two. *)
Lemma contention_tick_restarts_the_clock :
  let E := legacy_board in
  let o1 := sensors_task_tick E (sample_tick true pa_100m) (started E) in
  let o2 := sensors_task_tick E (sample_tick false pa_100m) (world o1) in
  let o3 := sensors_task_tick E (sample_tick true pa_100m_0625) (world o2) in
  let d1 := sensor_data (world o1) in
  let d2 := sensor_data (world o2) in
  let d3 := sensor_data (world o3) in
  let claimed :=
    clamp_vertical_speed
      (smooth_vertical_speed (vertical_speed d2) (pressure_height d3)
                             (pressure_height d2) (elapsed E 2))
      (speed_ms (gps d2)) in
  (In (xSemaphoreTake_xSpiSemaphore true) (trace o1) /\
   In (xSemaphoreTake_xSpiSemaphore false) (trace o2) /\
   In (xSemaphoreTake_xSpiSemaphore true) (trace o3)) /\
  (vertical_speed d1 = vertical_speed d2 /\ pressure_height d1 = pressure_height d2) /\
  claimed = F32.lit 5 16 /\
  vertical_speed d3 = F32.lit 5 8 /\
  vertical_speed d3 <> claimed.
Proof.
  cbv zeta.
  split; [vm_compute; tauto | ].
  split; [split; vm_compute; reflexivity | ].
  split; [vm_compute; reflexivity | ].
  split; [vm_compute; reflexivity | ].
  vm_compute. discriminate.
Qed.

(** ** The simulation flag *)

Lemma bind_exit {A B} (m : M A) (k : A -> M B) w w1 t1 :
  m w = mkOut None w1 t1 -> bind m k w = mkOut None w1 t1.
Proof. intros H. unfold bind. rewrite H. reflexivity. Qed.

Lemma tick_scp1000_returns E inp w : result (tick_scp1000 E inp w) = Some tt.
Proof.
  destruct (HARDWARE_VERSION E <? V01O) eqn:Hhw.
  - destruct (scp1000_dataready_in inp) eqn:Hr.
    + rewrite (tick_scp1000_ready E inp w Hhw Hr). reflexivity.
    + rewrite (tick_scp1000_not_ready E inp w Hhw Hr). reflexivity.
  - rewrite (tick_scp1000_newer E inp w Hhw). reflexivity.
Qed.

Lemma result_bind {A B} (m : M A) (k : A -> M B) w a :
  result (m w) = Some a -> result (bind m k w) = result (k a (world (m w))).
Proof. intros H. unfold bind. rewrite H. reflexivity. Qed.

(** Outside the 5 Hz branch a tick returns, whatever the flag. *)
Lemma tick_outside_5Hz_returns E inp w :
  (next_counter E (low_update_counter (sensors_locals w)) mod 50 =? 0) = false ->
  result (sensors_task_tick E inp w) = Some tt.
Proof.
  intros Hc. rewrite sensors_task_tick_run, Hc. cbn [prefix_out result].
  rewrite (result_bind _ _ _ tt) by apply tick_scp1000_returns.
  apply tick_end_returns.
Qed.

(** C2 (corrected form).  The simulation flag is looked at in the 5 Hz branch
    only.  On a tick whose counter is a multiple of 50 and on which the flag
    is set, the task deletes itself after the seven ADC reads, the restart
    of the ADC and the scaling, and before the battery read, any barometer or
    magnetometer access and the attitude filter: the trace of the tick is
    the acquisition followed by [vTaskDelete], and the loop runs no further
    tick.  On any other tick on which the flag is set, the tick runs and
    returns exactly as with the flag clear. *)
Theorem simulation_flag_ends_task_in_5Hz_branch :
  forall (E : Env) (inp : TickIn) (w : World),
    simulation_mode inp = true ->
    let o := sensors_task_tick E inp w in
    if next_counter E (low_update_counter (sensors_locals w)) mod 50 =? 0
    then result o = None /\
         world o = acquired E inp w /\
         trace o = acquire_trace E ++ [vTaskDelete] /\
         before_delete (trace o) = acquire_trace E /\
         forall rest, sensors_task_loop E (inp :: rest) w = o
    else o = sensors_task_tick E (with_simulation_mode false inp) w /\
         result o = Some tt.
Proof.
  intros E inp w Hs o. subst o.
  destruct (next_counter E (low_update_counter (sensors_locals w)) mod 50 =? 0) eqn:Hc.
  - assert (Ho : sensors_task_tick E inp w =
                 mkOut None (acquired E inp w) (acquire_trace E ++ [vTaskDelete])).
    { rewrite sensors_task_tick_run, Hc.
      rewrite (bind_exit _ _ _ _ _ (tick_5Hz_simulation E inp _ Hs)). reflexivity. }
    rewrite Ho. cbn [result world trace].
    repeat split.
    intros rest. cbn [sensors_task_loop].
    rewrite (bind_exit _ _ _ _ _ Ho). reflexivity.
  - split; [ | apply tick_outside_5Hz_returns; exact Hc].
    rewrite !sensors_task_tick_run, Hc. reflexivity.
Qed.

(** An instance: the flag set on the tenth tick, whose counter is 50. *)
Lemma simulation_flag_ends_task_in_5Hz_branch_witness :
  let E := legacy_board in
  let w := run_ticks E (repeat quiet_tick 9) (started E) in
  let inp := tick_in true true true pa_100m in
  let o := sensors_task_tick E inp w in
  simulation_mode inp = true /\
  next_counter E (low_update_counter (sensors_locals w)) = 50 /\
  result o = None /\
  trace o = [vTaskDelayUntil 20; adc_get_channel 6; adc_get_channel 1;
             adc_get_channel 0; adc_get_channel 4; adc_get_channel 7;
             adc_get_channel 5; adc_get_channel 3; adc_start; vTaskDelete].
Proof.
  cbv zeta.
  assert (H1 : simulation_mode (tick_in true true true pa_100m) = true) by reflexivity.
  assert (H2 : next_counter legacy_board
                 (low_update_counter (sensors_locals
                    (run_ticks legacy_board (repeat quiet_tick 9) (started legacy_board))))
               = 50) by (vm_compute; reflexivity).
  split; [exact H1 | ]. split; [exact H2 | ].
  pose proof (simulation_flag_ends_task_in_5Hz_branch legacy_board _
                (run_ticks legacy_board (repeat quiet_tick 9) (started legacy_board)) H1)
    as H.
  cbv zeta in H. rewrite H2 in H.
  change (50 mod 50 =? 0) with true in H. cbv iota in H.
  destruct H as (Hres & _ & Htr & _).
  split; [exact Hres | exact Htr].
Defined.

(** C2 as the design document words it fails twice.  With the flag set on a
    tick whose counter is 5, the task is not ended: the tick returns, asks
    the SCP1000 and reads it, and no [vTaskDelete] is in its trace.  With the
    flag set on a tick whose counter is 50, the task is ended, but the seven
    ADC reads and the restart of the ADC come before the [vTaskDelete]. *)
Lemma simulation_flag_is_seen_late :
  let E := legacy_board in
  let inp := tick_in true true true pa_100m in
  let o5 := sensors_task_tick E inp (started E) in
  let o50 := sensors_task_tick E inp (run_ticks E (repeat quiet_tick 9) (started E)) in
  simulation_mode inp = true /\
  (result o5 = Some tt /\
   filter (is_event vTaskDelete) (trace o5) = [] /\
   filter is_hardware_access (trace o5) =
     [adc_get_channel 6; adc_get_channel 1; adc_get_channel 0; adc_get_channel 4;
      adc_get_channel 7; adc_get_channel 5; adc_get_channel 3; adc_start;
      scp1000_dataready; xSemaphoreTake_xSpiSemaphore true; scp1000_get_pressure;
      scp1000_get_temperature; xSemaphoreGive_xSpiSemaphore]) /\
  (result o50 = None /\
   filter is_hardware_access (before_delete (trace o50)) =
     [adc_get_channel 6; adc_get_channel 1; adc_get_channel 0; adc_get_channel 4;
      adc_get_channel 7; adc_get_channel 5; adc_get_channel 3; adc_start]).
Proof.
  cbv zeta. repeat split; vm_compute; reflexivity.
Qed.

(** ** The phases of the newer barometer *)

Lemma tick_counter E inp w :
  counter_of (world (sensors_task_tick E inp w)) = next_counter E (counter_of w).
Proof.
  rewrite sensors_task_tick_run. cbn [prefix_out world].
  assert (K : keeps (same_on counter_of)
                ((if next_counter E (low_update_counter (sensors_locals w)) mod 50 =? 0
                  then tick_5Hz E inp else tick_scp1000 E inp) ;;
                 tick_magnetometer E inp ;; tick_ahrs E)).
  { unfold tick_5Hz, tick_scp1000, scp1000_update, bmp085_temperature_phase,
      bmp085_pressure_phase, tick_magnetometer, tick_ahrs, call_adc_get_channel,
      sd, locals, assign, assign_local.
    repeat keeps_step untouched. }
  rewrite (K (acquired E inp w)). reflexivity.
Qed.

Lemma tick_end_has_no_bmp085_read E inp w :
  bmp085_reads (trace ((tick_magnetometer E inp ;; tick_ahrs E) w)) = [].
Proof.
  unfold tick_magnetometer, tick_ahrs, bind, when, locals, assign; cbn.
  destruct (ENABLE_QUADROCOPTER E), (F1E_STEERING E); cbn;
    try destruct (low_update_counter (sensors_locals w) mod 25 =? 0); reflexivity.
Qed.

(** A 5 Hz tick of the newer hardware whose counter has an even quotient by
    50 is a temperature phase. *)
Lemma temperature_phase_tick E inp w :
  HARDWARE_VERSION E >= V01O ->
  simulation_mode inp = false ->
  next_counter E (counter_of w) mod 50 = 0 ->
  (next_counter E (counter_of w) / 50) mod 2 = 0 ->
  result (sensors_task_tick E inp w) = Some tt /\
  bmp085_reads (trace (sensors_task_tick E inp w)) = [bmp085_read_temp].
Proof.
  unfold counter_of. intros Hhw Hs Hc Hp. bool_hyps.
  rewrite sensors_task_tick_run, Hc.
  rewrite (bind_run _ _ _ _ _ _ (tick_5Hz_temperature E inp (acquired E inp w) Hs Hhw Hp)).
  cbn [prefix_out result trace]. split; [apply tick_end_returns | ].
  unfold bmp085_reads. rewrite !filter_app.
  fold (bmp085_reads (trace ((tick_magnetometer E inp;; tick_ahrs E)
                               (with_sensor_data (temperature_phase_data inp)
                                                 (acquired E inp w))))).
  rewrite tick_end_has_no_bmp085_read. reflexivity.
Qed.

Lemma next_counter_65000 E : next_counter E 65000 = 0.
Proof. unfold next_counter, tick_step. destruct (ENABLE_QUADROCOPTER E); reflexivity. Qed.

(** On either build, the tick whose counter is 65000 and the tick after it,
    whose counter is back at 0, are both temperature phases. *)
Lemma counter_reset_repeats_temperature_phase E inp1 inp2 w :
  HARDWARE_VERSION E >= V01O ->
  simulation_mode inp1 = false ->
  simulation_mode inp2 = false ->
  next_counter E (counter_of w) = 65000 ->
  let o1 := sensors_task_tick E inp1 w in
  let o2 := sensors_task_tick E inp2 (world o1) in
  bmp085_reads (trace o1) = [bmp085_read_temp] /\
  bmp085_reads (trace o2) = [bmp085_read_temp].
Proof.
  intros Hhw Hs1 Hs2 Hc o1 o2. subst o1 o2. split.
  - apply temperature_phase_tick; try assumption; rewrite Hc; reflexivity.
  - apply temperature_phase_tick; try assumption;
      rewrite tick_counter, Hc, next_counter_65000; reflexivity.
Qed.

(** C8.  On the newer hardware, from power-on, 13001 ticks of the 50 Hz
    build: the task is still running, its 5 Hz branch has read the barometer
    1301 times, the first 1300 reads alternate between pressure and
    temperature, and the last two, on the tick whose counter is 65000 and on
    the next one, whose counter has been reset to 0, are both temperature
    reads: across the reset of the counter the phases do not alternate. *)
Theorem counter_reset_breaks_alternation :
  let o := sensors_task newer_board quiet_tick (repeat quiet_tick (Z.to_nat 13001)) power_on in
  let reads := bmp085_reads (trace o) in
  result o = Some tt /\
  counter_of (world o) = 0 /\
  Z.of_nat (length reads) = 1301 /\
  alternating (firstn (Z.to_nat 1300) reads) = true /\
  skipn (Z.to_nat 1299) reads = [bmp085_read_temp; bmp085_read_temp] /\
  alternating reads = false.
Proof. vm_compute. repeat split. Qed.

(** ** The GPS task *)

(** A test that is not yet decided. *)
Ltac is_open c :=
  lazymatch c with
  | true => fail
  | false => fail
  | _ => idtac
  end.

(** Evaluate a GPS cycle as far as its tests allow. *)
Ltac gps_eval :=
  cbv beta iota zeta delta
    [bind when ret emit modify get sd assign assign_gps gps_i assign_i
     result world trace app with_sensor_data with_gps_task_i];
  cbn [sensor_data gps_task_i gps set_gps
       satellites_in_view status speed_ms set_satellites_in_view set_status
       set_speed_ms].

(** Split on a boolean test that depends on no other open test. *)
Ltac split_first_test :=
  match goal with
  | |- context [if ?c then _ else _] =>
      is_open c;
      lazymatch c with context [if _ then _ else _] => fail | _ => idtac end;
      lazymatch type of c with bool => idtac end;
      destruct c eqn:?
  end.

Lemma sensors_gps_task_cycle_run E inp w :
  sensors_gps_task_cycle E inp w =
  mkOut (Some tt) (gps_cycle_world E inp w) (gps_cycle_trace E inp w).
Proof.
  unfold sensors_gps_task_cycle, gps_cycle_world, gps_cycle_trace, fallback_speed,
    gps_after_wait, i_after_wait, indicator_events.
  destruct w as [d z l i].
  gps_eval. repeat (split_first_test; gps_eval); reflexivity.
Qed.

Lemma int16_in_range n : -32768 <= n <= 32767 -> int16 n = n.
Proof. intros H. unfold int16. rewrite Z.mod_small; lia. Qed.

Lemma int16_bounds n : -32768 <= int16 n <= 32767.
Proof. unfold int16. pose proof (Z.mod_pos_bound (n + 32768) 65536). lia. Qed.

Lemma c_rem_2_even x : (c_rem x 2 =? 0) = Z.even x.
Proof. unfold c_rem. symmetry. apply Zquot.Zeven_rem. Qed.

Lemma even_int16 n : Z.even (int16 n) = Z.even n.
Proof.
  unfold int16.
  rewrite (Z.mod_eq (n + 32768) 65536) by lia.
  replace (n + 32768 - 65536 * ((n + 32768) / 65536) - 32768)
    with (n - 2 * (32768 * ((n + 32768) / 65536))) by lia.
  rewrite Z.even_sub, Z.even_mul. cbn [Z.even orb].
  destruct (Z.even n); reflexivity.
Qed.

Lemma even_int16_succ n : Z.even (int16 (n + 1)) = negb (Z.even n).
Proof.
  rewrite even_int16, Z.add_1_r, Z.even_succ. symmetry. apply Z.negb_even.
Qed.

Lemma hook_calls_cycle E inp w :
  hook_calls (gps_cycle_trace E inp w) =
  if c_rem (i_after_wait inp (gps_task_i w)) 2 =? 0 then 1%nat else 0%nat.
Proof.
  unfold gps_cycle_trace, hook_calls, indicator_events.
  cbn [filter is_event]. rewrite !filter_app.
  destruct (fix_ready inp);
    destruct (c_rem _ 2 =? 0);
    repeat match goal with
      | |- context [if ?c then _ else _] => is_open c; destruct c
      end;
    reflexivity.
Qed.

(** C6.  A cycle of the GPS task returns, with its counter within the
    range of a 16-bit [int].  When no fix-ready signal came within the
    205 ms, it leaves the status [EMPTY], no satellite in view and its
    counter at 0, and it asks for the indicator to be off, not on.  When the
    signal came, the [gps] sub-structure is what the parser made of it (with
    the cruising speed in place of the speed when fewer than four satellites
    are in view while airborne), and the counter is one more: [i + 1] for
    every [i] from -32768 to 32766, the values the [int] of the code takes
    and can be incremented from ([int16 (i + 1)] for every [i]). *)
Theorem gps_cycle_timeout_and_fix :
  forall (E : Env) (inp : GpsIn) (w : World),
    let o := sensors_gps_task_cycle E inp w in
    let g' := gps (sensor_data (world o)) in
    let i := gps_task_i w in
    let i' := gps_task_i (world o) in
    result o = Some tt /\
    -32768 <= i' <= 32767 /\
    if fix_ready inp
    then g' = fallback_speed E inp (gps_update_info_in inp (gps (sensor_data w))) /\
         (-32768 <= i < 32767 -> i' = i + 1) /\
         i' = int16 (i + 1) /\
         In gps_update_info (trace o)
    else status g' = EMPTY /\
         satellites_in_view g' = 0 /\
         i' = 0 /\
         In led2_off (trace o) /\
         ~ In led2_on (trace o).
Proof.
  intros E inp w o g' i i'. subst o g' i i'.
  rewrite sensors_gps_task_cycle_run. cbn [result world trace].
  split; [reflexivity | ].
  unfold gps_cycle_world, gps_cycle_trace, gps_after_wait, i_after_wait.
  destruct (fix_ready inp).
  - cbn [gps_task_i with_gps_task_i].
    split; [apply int16_bounds | ].
    split; [reflexivity | ].
    split; [intros Hi; apply int16_in_range; lia | ].
    split; [reflexivity | ]. cbn. tauto.
  - cbn [sensor_data gps_task_i with_gps_task_i with_sensor_data gps set_gps].
    split; [lia | ].
    unfold fallback_speed, indicator_events.
    destruct ((satellites_in_view _ <? 4) && airborne inp);
      cbn [status satellites_in_view set_speed_ms set_satellites_in_view set_status
           gps_status_eqb negb andb];
      rewrite ?andb_false_r; cbn [andb];
      (split; [reflexivity | ]); (split; [reflexivity | ]); (split; [reflexivity | ]);
      (split; [cbn; tauto | ]);
      change (c_rem 0 2 =? 0) with true; cbn;
      intros [H | [H | [H | H]]]; try discriminate H; exact H.
Qed.

(** An instance: the first fix after start-up takes the counter from 1280
    to 1281. *)
Lemma gps_cycle_timeout_and_fix_witness :
  let E := legacy_board in
  let o := sensors_gps_task_cycle E (fix_cycle 8) gps_started in
  (fix_ready (fix_cycle 8) = true /\ -32768 <= gps_task_i gps_started < 32767) /\
  gps_task_i gps_started = 1280 /\
  gps_task_i (world o) = 1281.
Proof.
  cbv zeta.
  assert (H1 : fix_ready (fix_cycle 8) = true) by reflexivity.
  assert (H2 : -32768 <= gps_task_i gps_started < 32767)
    by (vm_compute; split; [discriminate | reflexivity]).
  assert (H3 : gps_task_i gps_started = 1280) by (vm_compute; reflexivity).
  split; [split; assumption | ]. split; [exact H3 | ].
  pose proof (gps_cycle_timeout_and_fix legacy_board (fix_cycle 8) gps_started) as H.
  cbv zeta in H. rewrite H1 in H.
  destruct H as (_ & _ & _ & Hinc & _).
  rewrite (Hinc H2), H3. reflexivity.
Defined.

(** C9 (corrected form).  A cycle of the GPS task calls the post-processing
    hook once if the counter it leaves is even and not at all otherwise,
    whether or not a fix-ready signal came.  After a timeout the counter is
    0, so every timeout cycle calls the hook; after a signal it is one more
    than before, so of two cycles in a row that both received a signal
    exactly one calls the hook. *)
Theorem hook_runs_when_counter_even :
  forall (E : Env) (inp inp2 : GpsIn) (w : World),
    let o := sensors_gps_task_cycle E inp w in
    let o2 := sensors_gps_task_cycle E inp2 (world o) in
    hook_calls (trace o) =
      (if c_rem (gps_task_i (world o)) 2 =? 0 then 1%nat else 0%nat) /\
    (if fix_ready inp
     then gps_task_i (world o) = int16 (gps_task_i w + 1)
     else gps_task_i (world o) = 0 /\ hook_calls (trace o) = 1%nat) /\
    (if fix_ready inp && fix_ready inp2
     then (hook_calls (trace o) + hook_calls (trace o2) = 1)%nat
     else True).
Proof.
  intros E inp inp2 w o o2. subst o o2.
  rewrite !sensors_gps_task_cycle_run. cbn [result world trace].
  rewrite !hook_calls_cycle.
  change (gps_task_i (gps_cycle_world E inp w)) with (i_after_wait inp (gps_task_i w)).
  split; [reflexivity | ].
  unfold i_after_wait.
  destruct (fix_ready inp); cbn [andb].
  - split; [reflexivity | ].
    destruct (fix_ready inp2); [ | exact I].
    rewrite !c_rem_2_even, (even_int16_succ (int16 (gps_task_i w + 1))).
    destruct (Z.even (int16 (gps_task_i w + 1))); reflexivity.
  - repeat split.
Qed.

(** C9 as the design document words it fails on a timeout: the first cycle
    after start-up receives no signal, resets the counter from 1280 to 0,
    and calls the hook. *)
Lemma timeout_cycle_calls_hook :
  let o := sensors_gps_task_cycle legacy_board timeout_cycle gps_started in
  gps_task_i gps_started = 1280 /\
  fix_ready timeout_cycle = false /\
  gps_task_i (world o) = 0 /\
  trace o = [xSemaphoreTake_xGpsSemaphore false; led2_off; gluonscript_do] /\
  hook_calls (trace o) = 1%nat.
Proof. cbv zeta. repeat split; vm_compute; reflexivity. Qed.

(** ** Scaling *)

Lemma binary_round_aux_opp s m e l :
  binary_round_aux F32.prec F32.emax (negb s) m e l
  = SFopp (binary_round_aux F32.prec F32.emax s m e l).
Proof.
  unfold binary_round_aux.
  destruct (shr_fexp F32.prec F32.emax m e l) as [mrs' e'].
  destruct (shr_fexp F32.prec F32.emax _ e' loc_Exact) as [mrs'' e''].
  destruct (shr_m mrs''); [reflexivity | | reflexivity].
  destruct (Z.leb e'' (Z.sub F32.emax F32.prec)); reflexivity.
Qed.

(** Dividing by the opposite gives the opposite, bit for bit. *)
Lemma div_opp_r x y : F32.div x (F32.opp y) = F32.opp (F32.div x y).
Proof.
  unfold F32.div, F32.opp, SFdiv.
  destruct x as [sx | sx | | sx mx ex], y as [sy | sy | | sy my ey];
    cbn [SFopp]; try reflexivity;
    try (destruct sx, sy; reflexivity).
  destruct (SFdiv_core_binary F32.prec F32.emax (Zpos mx) ex (Zpos my) ey)
    as [[mz ez] lz].
  rewrite <- binary_round_aux_opp. destruct sx, sy; reflexivity.
Qed.

Lemma acc_xy_divisor : F32.mul (F32.opp acc_value_g) INVERT_X = acc_value_g.
Proof. vm_compute. reflexivity. Qed.

Lemma init_sets_scale_z_gyro E init w :
  scale_z_gyro (world (sensors_task_init E init w)) =
  if HARDWARE_VERSION E >=? V01N then scale_z_gyro_idz500 else scale_z_gyro_adxrs613.
Proof.
  unfold sensors_task_init.
  rewrite (bind_run _ _ w tt _ []) by reflexivity.
  rewrite (bind_run _ _ _ tt _ [uart1_puts]) by reflexivity.
  cbn [prefix_out world].
  destruct (ENABLE_QUADROCOPTER E || F1E_STEERING E),
           (HARDWARE_VERSION E >=? V01O), (HARDWARE_VERSION E >=? V01N);
    reflexivity.
Qed.

Lemma tick_keeps_scale_z_gyro E inp :
  keeps (same_on scale_z_gyro) (sensors_task_tick E inp).
Proof. unfold_sensors. repeat keeps_step untouched. Qed.

(** C7 (corrected form).  [scale_raw_sensor_data] is a function of the raw
    samples, the neutral offsets and [scale_z_gyro]: it returns, calls no
    driver, writes the six scaled fields and nothing else, and run again on
    its own result it changes nothing.  The accelerations are
    [sigma (r - c) / s] in binary32, with [s = 6600] and [sigma = +1] for x
    and y, [-1] for z.  The rates are products, [(r - c) k]: [k] is a signed
    factor in rad/s per count, [scale_z_gyro] for the Z axis.
    [scale_z_gyro] is set by the start-up of [sensors_task], from
    [HARDWARE_VERSION >= V01N], and no tick changes it. *)
Theorem scaling_is_pure :
  forall (E : Env) (init inp : TickIn) (w v : World),
    let o := scale_raw_sensor_data E w in
    let d := sensor_data w in
    let d' := sensor_data (world o) in
    (result o = Some tt /\ trace o = [] /\
     world o = with_sensor_data (scaled E (scale_z_gyro w)) w) /\
    scale_raw_sensor_data E (world o) = o /\
    (acc_x d' = F32.div (F32.sub (F32.of_Z (acc_x_raw d)) (acc_x_neutral E)) (F32.of_Z 6600) /\
     acc_y d' = F32.div (F32.sub (F32.of_Z (acc_y_raw d)) (acc_y_neutral E)) (F32.of_Z 6600) /\
     acc_z d' = F32.opp (F32.div (F32.sub (F32.of_Z (acc_z_raw d)) (acc_z_neutral E))
                                 (F32.of_Z 6600))) /\
    (p d' = F32.mul (F32.sub (F32.of_Z (gyro_x_raw d)) (gyro_x_neutral E)) gyro_x_factor /\
     q d' = F32.mul (F32.sub (F32.of_Z (gyro_y_raw d)) (gyro_y_neutral E)) gyro_y_factor /\
     r d' = F32.mul (F32.sub (F32.of_Z (gyro_z_raw d)) (gyro_z_neutral E)) (scale_z_gyro w)) /\
    scale_z_gyro (world (sensors_task_init E init v)) =
      (if HARDWARE_VERSION E >=? V01N then scale_z_gyro_idz500 else scale_z_gyro_adxrs613) /\
    scale_z_gyro (world (sensors_task_tick E inp v)) = scale_z_gyro v.
Proof.
  intros E init inp w v o d d'. subst o d d'.
  rewrite scale_raw_sensor_data_run. cbn [result world trace].
  split; [repeat split | ].
  split; [rewrite scale_raw_sensor_data_run; reflexivity | ].
  split.
  { cbn. rewrite acc_xy_divisor, div_opp_r. repeat split. }
  split; [repeat split | ].
  split; [apply init_sets_scale_z_gyro | apply tick_keeps_scale_z_gyro].
Qed.

(** C7 as the design document words it fails on the rates.  With a raw
    sample three counts above the neutral offset, the stored [p] is the
    product [3 k]; it is not the quotient of 3 by the scale constant [s]
    whose reciprocal is [k], with either sign, and not the quotient of 3 by
    [k] itself. *)
Lemma gyro_scaling_is_a_product :
  let E := legacy_board in
  let w := with_sensor_data (set_gyro_x_raw 29003) power_on in
  let d' := sensor_data (world (scale_raw_sensor_data E w)) in
  let diff := F32.sub (F32.of_Z (gyro_x_raw (sensor_data w))) (gyro_x_neutral E) in
  let s := F32.div (F32.of_Z 1) gyro_x_factor in
  diff = F32.of_Z 3 /\
  F32.div (F32.of_Z 1) s = gyro_x_factor /\
  p d' = F32.mul diff gyro_x_factor /\
  p d' <> F32.div diff s /\
  p d' <> F32.opp (F32.div diff s) /\
  p d' <> F32.div diff gyro_x_factor.
Proof.
  cbv zeta.
  split; [vm_compute; reflexivity | ].
  split; [vm_compute; reflexivity | ].
  split; [vm_compute; reflexivity | ].
  split; [vm_compute; discriminate | ].
  split; vm_compute; discriminate.
Qed.

(** * Further properties of the two tasks *)

(** ** Trace lemmas *)

#[global] Instance all_events_Closed (p : Event -> bool) : Closed (all_events p).
Proof.
  split; unfold all_events.
  - reflexivity.
  - intros a b Ha Hb. rewrite forallb_app, Ha, Hb. reflexivity.
Qed.

Lemma spi_protocol_app h a b :
  spi_protocol h (a ++ b) =
  match spi_protocol h a with
  | Some h' => spi_protocol h' b
  | None => None
  end.
Proof.
  revert h. induction a as [|e a IH]; intros h; [reflexivity | ].
  destruct e; cbn [app spi_protocol]; try apply IH.
  - destruct taken; [destruct h; [reflexivity | apply IH] | apply IH].
  - destruct h; [apply IH | reflexivity].
  - destruct h; [apply IH | reflexivity].
  - destruct h; [apply IH | reflexivity].
Qed.

#[global] Instance spi_respected_Closed : Closed spi_respected.
Proof.
  split; unfold spi_respected.
  - reflexivity.
  - intros a b Ha Hb. rewrite spi_protocol_app, Ha. exact Hb.
Qed.

Section Traces.

Context (Q : list Event -> Prop) `{!Closed Q}.

Lemma traces_ret {A} (a : A) : traces Q (ret a).
Proof. intro w. apply closed_nil. Qed.

Lemma traces_get : traces Q get.
Proof. intro w. apply closed_nil. Qed.

Lemma traces_task_exit {A} : traces Q (@task_exit A).
Proof. intro w. apply closed_nil. Qed.

Lemma traces_modify g : traces Q (modify g).
Proof. intro w. apply closed_nil. Qed.

Lemma traces_emit e : Q [e] -> traces Q (emit e).
Proof. intros H w. exact H. Qed.

Lemma traces_bind {A C} (m : M A) (k : A -> M C) :
  traces Q m -> (forall a, traces Q (k a)) -> traces Q (bind m k).
Proof.
  intros Hm Hk w. unfold bind.
  destruct (result (m w)) as [a|]; cbn [trace].
  - apply closed_app; [apply Hm | apply Hk].
  - apply Hm.
Qed.

Lemma traces_when b m : traces Q m -> traces Q (when b m).
Proof. intros H. destruct b; [exact H | apply traces_ret]. Qed.

Lemma traces_if {A} (b : bool) (m1 m2 : M A) :
  traces Q m1 -> traces Q m2 -> traces Q (if b then m1 else m2).
Proof. intros H1 H2. destruct b; assumption. Qed.

End Traces.

(** One step through the structure of a computation; a block with a lemma
    of its own is left to [blk], an event to computation. *)
Ltac traces_step blk :=
  first [ blk
        | apply traces_bind; [ typeclasses eauto | | intro ]
        | apply traces_when; [ typeclasses eauto | ]
        | apply traces_if
        | apply traces_ret; typeclasses eauto
        | apply traces_get; typeclasses eauto
        | apply traces_task_exit; typeclasses eauto
        | apply traces_modify; typeclasses eauto
        | apply traces_emit; reflexivity ].

Ltac no_block := idtac; fail.

Lemma loop_traces E (Q : list Event -> Prop) `{!Closed Q} ticks :
  (forall inp, traces Q (sensors_task_tick E inp)) ->
  traces Q (sensors_task_loop E ticks).
Proof.
  intros H. induction ticks as [|inp rest IH]; cbn [sensors_task_loop].
  - apply traces_ret; assumption.
  - apply traces_bind; [assumption | apply H | intros _; exact IH].
Qed.

(** ** The SPI token *)

Lemma scp1000_update_spi E inp : traces spi_respected (scp1000_update E inp).
Proof.
  intro w. rewrite scp1000_update_run. cbn [trace]. unfold scp1000_trace.
  destruct (xSpiSemaphore_free inp); reflexivity.
Qed.

Lemma tick_spi E inp : traces spi_respected (sensors_task_tick E inp).
Proof.
  unfold sensors_task_tick, tick_wait, read_raw_sensor_data, call_adc_get_channel,
    scale_raw_sensor_data, tick_5Hz, tick_scp1000,
    bmp085_temperature_phase, bmp085_pressure_phase,
    tick_magnetometer, tick_ahrs, sd, locals, assign, assign_local.
  repeat traces_step ltac:(apply scp1000_update_spi).
Qed.

Lemma init_spi E inp : traces spi_respected (sensors_task_init E inp).
Proof.
  unfold sensors_task_init, read_raw_sensor_data, call_adc_get_channel,
    scale_raw_sensor_data, assign, assign_local.
  repeat traces_step no_block.
Qed.

(** X1.  On either hardware and either build, whatever the inputs and the
    number of ticks, and whether the task runs on or deletes itself: along
    the whole trace of [sensors_task] the SCP1000 is read only while the SPI
    token is held, the token is never taken while held nor given while not
    held, and it is not held at the end. *)
Theorem spi_token_is_respected :
  forall (E : Env) (init : TickIn) (ticks : list TickIn) (w : World),
    spi_protocol false (trace (sensors_task E init ticks w)) = Some false.
Proof.
  intros E init ticks w. unfold sensors_task.
  apply (traces_bind spi_respected);
    [ apply init_spi | intros _; apply loop_traces; [typeclasses eauto | apply tick_spi] ].
Qed.

(** ** One barometer per hardware generation *)

Lemma tick_5Hz_legacy_traces E inp (Q : list Event -> Prop) `{!Closed Q} :
  (HARDWARE_VERSION E >=? V01O) = false ->
  Q [vTaskDelete] -> Q [adc_get_channel 8] ->
  traces Q (tick_5Hz E inp).
Proof.
  intros Hhw Hd Ha. unfold tick_5Hz. rewrite Hhw.
  change (when false ?m) with (ret tt).
  unfold call_adc_get_channel, assign.
  repeat first [ apply traces_emit; assumption | traces_step no_block ].
Qed.

Lemma tick_scp1000_newer_traces E inp (Q : list Event -> Prop) `{!Closed Q} :
  (HARDWARE_VERSION E <? V01O) = false ->
  traces Q (tick_scp1000 E inp).
Proof. intros Hhw w. rewrite (tick_scp1000_newer E inp w Hhw). apply closed_nil. Qed.

Lemma legacy_tick_has_no_bmp085 E inp :
  (HARDWARE_VERSION E <? V01O) = true ->
  traces (all_events not_bmp085) (sensors_task_tick E inp).
Proof.
  intros Hhw.
  unfold sensors_task_tick, tick_wait, read_raw_sensor_data, call_adc_get_channel,
    scale_raw_sensor_data, tick_scp1000, scp1000_update,
    tick_magnetometer, tick_ahrs, sd, locals, assign, assign_local.
  repeat traces_step
    ltac:(apply tick_5Hz_legacy_traces;
          [typeclasses eauto | apply legacy_not_newer; exact Hhw
          | reflexivity | reflexivity]).
Qed.

Lemma newer_tick_has_no_scp1000_access E inp :
  (HARDWARE_VERSION E <? V01O) = false ->
  traces (all_events not_scp1000_access) (sensors_task_tick E inp).
Proof.
  intros Hhw.
  unfold sensors_task_tick, tick_wait, read_raw_sensor_data, call_adc_get_channel,
    scale_raw_sensor_data, tick_5Hz, bmp085_temperature_phase, bmp085_pressure_phase,
    tick_magnetometer, tick_ahrs, sd, locals, assign, assign_local.
  repeat traces_step
    ltac:(apply tick_scp1000_newer_traces; [typeclasses eauto | exact Hhw]).
Qed.

Lemma not_legacy_newer E :
  (HARDWARE_VERSION E <? V01O) = false -> (HARDWARE_VERSION E >=? V01O) = true.
Proof. intros H. apply Z.ltb_ge in H. rewrite Z.geb_leb. apply Z.leb_le. exact H. Qed.

Lemma init_device_traces E inp (p : Event -> bool) :
  (if HARDWARE_VERSION E >=? V01O
   then p i2c_init = true /\ p bmp085_init = true
   else p scp1000_init = true) ->
  p uart1_puts = true -> p (vTaskDelay 20) = true -> p hmc5843_init = true ->
  p i2c_init = true -> p adc_open = true -> p ahrs_init = true ->
  p xTaskGetTickCount = true -> (forall n, p (adc_get_channel n) = true) ->
  traces (all_events p) (sensors_task_init E inp).
Proof.
  intros Hdev H1 H2 H3 H4 H5 H6 H7 H8.
  assert (He : forall e, p e = true -> all_events p [e]).
  { intros e H. unfold all_events. cbn. rewrite H. reflexivity. }
  unfold sensors_task_init, read_raw_sensor_data, call_adc_get_channel,
    scale_raw_sensor_data, assign, assign_local.
  destruct (HARDWARE_VERSION E >=? V01O);
    repeat first [ apply traces_emit; apply He; first [assumption | apply H8 | apply Hdev]
                 | traces_step no_block ].
Qed.

(** X2.  The two barometric sensors exclude one another.  On the legacy
    hardware ([HARDWARE_VERSION < V01O]) no function of the BMP085 driver is
    ever called, at start-up or in any tick.  On the newer hardware the
    SCP1000 sensor is never reached: it is not initialised, not asked for a
    sample and not read, and the SPI token is neither taken nor given.  The
    statement is about these calls ([is_scp1000_access]); the height
    conversion [scp1000_pressure_to_height], which the newer hardware calls
    too, is not one of them. *)
Theorem one_barometric_sensor_per_hardware :
  forall (E : Env) (init : TickIn) (ticks : list TickIn) (w : World),
    forallb (if HARDWARE_VERSION E <? V01O then not_bmp085 else not_scp1000_access)
            (trace (sensors_task E init ticks w)) = true.
Proof.
  intros E init ticks w. unfold sensors_task.
  destruct (HARDWARE_VERSION E <? V01O) eqn:Hhw.
  - apply (traces_bind (all_events not_bmp085)).
    + apply init_device_traces; try reflexivity.
      rewrite (legacy_not_newer E Hhw). reflexivity.
    + intros _. apply loop_traces; [typeclasses eauto | ].
      intro inp. apply legacy_tick_has_no_bmp085. exact Hhw.
  - apply (traces_bind (all_events not_scp1000_access)).
    + apply init_device_traces; try reflexivity.
      rewrite (not_legacy_newer E Hhw). split; reflexivity.
    + intros _. apply loop_traces; [typeclasses eauto | ].
      intro inp. apply newer_tick_has_no_scp1000_access. exact Hhw.
Qed.

(** ** The acquisition of the inertial samples *)

(** What follows the acquisition in a tick. *)
Lemma after_acquisition_keeps_imu E inp (b : bool) :
  keeps (same_on imu)
    ((if b then tick_5Hz E inp else tick_scp1000 E inp) ;;
     tick_magnetometer E inp ;; tick_ahrs E).
Proof.
  unfold tick_5Hz, tick_scp1000, scp1000_update, bmp085_temperature_phase,
    bmp085_pressure_phase, tick_magnetometer, tick_ahrs, call_adc_get_channel,
    sd, locals, assign, assign_local.
  repeat keeps_step untouched.
Qed.

Lemma after_acquisition_traces E inp (b : bool) (p : Event -> bool) :
  (forall e, is_imu_read e || is_adc_start e = false -> p e = true) ->
  traces (all_events p)
    ((if b then tick_5Hz E inp else tick_scp1000 E inp) ;;
     tick_magnetometer E inp ;; tick_ahrs E).
Proof.
  intros Hp.
  assert (He : forall e, is_imu_read e || is_adc_start e = false -> all_events p [e]).
  { intros e H. unfold all_events. cbn. rewrite (Hp e H). reflexivity. }
  unfold tick_5Hz, tick_scp1000, scp1000_update, bmp085_temperature_phase,
    bmp085_pressure_phase, tick_magnetometer, tick_ahrs, call_adc_get_channel,
    sd, locals, assign, assign_local.
  repeat first [ apply traces_emit; apply He; reflexivity | traces_step no_block ].
Qed.

(** X3.  In every tick, whatever its branch and whether or not the task
    deletes itself in it, the seven channels of the inertial sensors are read
    first and the ADC is restarted right after: the trace of the tick is the
    acquisition followed by events among which there is neither a restart of
    the ADC nor a read of one of the seven channels.  At the end of the tick
    the raw fields hold the samples of this tick and the scaled fields are
    the scaling of these samples with the factor [scale_z_gyro] in force:
    nothing later in the tick touches them. *)
Theorem acquisition_comes_first :
  forall (E : Env) (inp : TickIn) (w : World),
    let o := sensors_task_tick E inp w in
    let d' := sensor_data (world o) in
    (exists rest,
        trace o = acquire_trace E ++ rest /\
        forallb not_adc_start rest = true /\
        forallb not_imu_read rest = true) /\
    imu (world o) =
      imu (with_sensor_data (fun d => scaled E (scale_z_gyro w) (raw_samples inp d)) w) /\
    (acc_x_raw d' = adc_in inp 6 /\ acc_y_raw d' = adc_in inp 0 /\
     acc_z_raw d' = adc_in inp 1 /\ gyro_x_raw d' = adc_in inp 4 /\
     gyro_y_raw d' = adc_in inp 7 /\ gyro_z_raw d' = adc_in inp 5 /\
     idg500_vref d' = adc_in inp 3) /\
    r d' = F32.mul (F32.sub (F32.of_Z (adc_in inp 5)) (gyro_z_neutral E)) (scale_z_gyro w).
Proof.
  intros E inp w o d'. subst o d'.
  rewrite sensors_task_tick_run. cbn [prefix_out world trace].
  split.
  { eexists. split; [reflexivity | ]. split.
    - apply (after_acquisition_traces E inp _ not_adc_start).
      intros e H. apply orb_false_elim in H as [_ H].
      unfold not_adc_start. rewrite H. reflexivity.
    - apply (after_acquisition_traces E inp _ not_imu_read).
      intros e H. apply orb_false_elim in H as [H _].
      unfold not_imu_read. rewrite H. reflexivity. }
  pose proof (after_acquisition_keeps_imu E inp
                (next_counter E (low_update_counter (sensors_locals w)) mod 50 =? 0)
                (acquired E inp w)) as K.
  unfold same_on in K.
  assert (Ha : imu (acquired E inp w) =
               imu (with_sensor_data
                      (fun d => scaled E (scale_z_gyro w) (raw_samples inp d)) w))
    by reflexivity.
  rewrite Ha in K. clear Ha.
  split; [exact K | ].
  unfold imu in K. cbn in K.
  injection K as K1 K2 K3 K4 K5 K6 K7 K8 K9 K10 K11 K12 K13 _.
  rewrite K1, K2, K3, K4, K5, K6, K7, K13.
  repeat split.
Qed.

(** ** The vertical speed on the newer hardware *)

Lemma tick_scp1000_newer_keeps E inp (R : World -> World -> Prop) `{!Preorder R} :
  (HARDWARE_VERSION E <? V01O) = false ->
  keeps R (tick_scp1000 E inp).
Proof. intros Hhw w. rewrite (tick_scp1000_newer E inp w Hhw). apply pre_refl. Qed.

Lemma newer_tick_keeps_vertical_speed E inp :
  (HARDWARE_VERSION E <? V01O) = false ->
  keeps (same_on vertical_speed_of) (sensors_task_tick E inp).
Proof.
  intros Hhw.
  unfold sensors_task_tick, tick_wait, read_raw_sensor_data, call_adc_get_channel,
    scale_raw_sensor_data, tick_5Hz, bmp085_temperature_phase, bmp085_pressure_phase,
    tick_magnetometer, tick_ahrs, sd, locals, assign, assign_local.
  repeat first [ apply tick_scp1000_newer_keeps; [typeclasses eauto | exact Hhw]
               | keeps_step untouched ].
Qed.

Lemma init_keeps_vertical_speed E inp :
  keeps (same_on vertical_speed_of) (sensors_task_init E inp).
Proof. unfold_sensors. repeat keeps_step untouched. Qed.

(** X4.  On the newer hardware the vertical speed is never computed: the
    start-up of [sensors_task] and any number of its ticks leave
    [sensor_data.vertical_speed] as it was, whatever the barometer returns. *)
Theorem newer_hardware_never_writes_vertical_speed :
  forall (E : Env) (init : TickIn) (ticks : list TickIn) (w : World),
    HARDWARE_VERSION E >= V01O ->
    vertical_speed (sensor_data (world (sensors_task E init ticks w)))
    = vertical_speed (sensor_data w).
Proof.
  intros E init ticks w Hhw.
  assert (Hl : (HARDWARE_VERSION E <? V01O) = false) by (apply Z.ltb_ge; lia).
  unfold sensors_task.
  apply (keeps_bind (same_on vertical_speed_of));
    [ apply init_keeps_vertical_speed
    | intros _; apply loop_keeps;
      [typeclasses eauto | intro inp; apply newer_tick_keeps_vertical_speed; exact Hl] ].
Qed.

(** ** The magnetometer *)

Lemma tick_magnetometer_run E inp w :
  tick_magnetometer E inp w =
  if magnetometer_build E && (low_update_counter (sensors_locals w) mod 25 =? 0)
  then mkOut (Some tt) (with_sensor_data (set_magnetometer_raw (hmc5843_in inp)) w)
             [hmc5843_read]
  else mkOut (Some tt) w [].
Proof.
  unfold tick_magnetometer, magnetometer_build.
  destruct (ENABLE_QUADROCOPTER E || F1E_STEERING E); [ | reflexivity].
  cbn [andb].
  cbv beta iota zeta delta
    [bind when ret emit modify get locals assign result world trace app].
  destruct (low_update_counter (sensors_locals w) mod 25 =? 0); reflexivity.
Qed.

Lemma branch_keeps_magnetometer E inp (b : bool) :
  keeps (same_on (fun w => (magnetometer_of w, counter_of w)))
    (if b then tick_5Hz E inp else tick_scp1000 E inp).
Proof.
  unfold tick_5Hz, tick_scp1000, scp1000_update, bmp085_temperature_phase,
    bmp085_pressure_phase, call_adc_get_channel, sd, locals, assign, assign_local.
  repeat keeps_step untouched.
Qed.

Lemma branch_has_no_magnetometer E inp (b : bool) :
  traces (all_events not_magnetometer)
    (if b then tick_5Hz E inp else tick_scp1000 E inp).
Proof.
  unfold tick_5Hz, tick_scp1000, scp1000_update, bmp085_temperature_phase,
    bmp085_pressure_phase, call_adc_get_channel, sd, locals, assign, assign_local.
  repeat traces_step no_block.
Qed.

Lemma count_zero_of_all p tr :
  forallb (fun e => negb (p e)) tr = true -> count_events p tr = 0%nat.
Proof.
  unfold count_events. induction tr as [|e tr IH]; cbn; [reflexivity | ].
  intros H. apply andb_true_iff in H as [He Ht].
  apply negb_true_iff in He. rewrite He. apply IH. exact Ht.
Qed.

Lemma count_events_app p a b :
  count_events p (a ++ b) = (count_events p a + count_events p b)%nat.
Proof. unfold count_events. rewrite filter_app, length_app. reflexivity. Qed.

(** X5.  The magnetometer is read in a tick exactly when it is compiled in
    ([ENABLE_QUADROCOPTER] or [F1E_STEERING]), the counter of the tick is a
    multiple of 25 and the task has not deleted itself in the tick; the raw
    magnetometer sample is then the one read, and otherwise it is what it
    was.  No other call to the magnetometer driver is made in a tick. *)
Theorem magnetometer_every_25_counts :
  forall (E : Env) (inp : TickIn) (w : World),
    let o := sensors_task_tick E inp w in
    let sampled :=
      returned o && magnetometer_build E
      && (next_counter E (counter_of w) mod 25 =? 0) in
    count_events is_magnetometer (trace o) = (if sampled then 1%nat else 0%nat) /\
    magnetometer_raw (sensor_data (world o)) =
      (if sampled then hmc5843_in inp else magnetometer_raw (sensor_data w)).
Proof.
  intros E inp w o sampled. subst o sampled. unfold counter_of.
  rewrite sensors_task_tick_run.
  set (b := next_counter E (low_update_counter (sensors_locals w)) mod 50 =? 0).
  pose proof (branch_keeps_magnetometer E inp b (acquired E inp w)) as K.
  pose proof (branch_has_no_magnetometer E inp b (acquired E inp w)) as T.
  unfold same_on in K. unfold all_events in T. apply count_zero_of_all in T.
  unfold returned, prefix_out, bind. cbn [result world trace].
  destruct ((if b then tick_5Hz E inp else tick_scp1000 E inp) (acquired E inp w))
    as [[[]|] w1 t1]; cbn [result world trace] in *.
  - injection K as Km Kc.
    change (counter_of (acquired E inp w))
      with (next_counter E (low_update_counter (sensors_locals w))) in Kc.
    unfold counter_of in Kc.
    rewrite tick_magnetometer_run, Kc.
    rewrite !count_events_app, T.
    change (count_events is_magnetometer (acquire_trace E)) with 0%nat.
    destruct (magnetometer_build E);
      destruct (next_counter E (low_update_counter (sensors_locals w)) mod 25 =? 0);
      cbn [andb result world trace];
      unfold tick_ahrs; destruct (ENABLE_QUADROCOPTER E);
      (split; [reflexivity | ]); try exact Km; reflexivity.
  - rewrite count_events_app, T. injection K as Km _.
    split; [reflexivity | exact Km].
Qed.

(** ** The newer barometer *)

(** X6.  On the newer hardware, on a tick of the 5 Hz branch with the
    simulation flag clear, the battery voltage is refreshed and the counter
    decides the phase.  When the quotient of the counter by 50 is even, the
    temperature is read: [temperature_10] is the value converted and
    [temperature] a tenth of it, pressure and height stay.  When it is odd,
    the pressure is read and the height is the conversion of that pressure
    and of the temperature stored by an earlier phase; the height is stored
    as it comes, without the test of the legacy path. *)
Theorem bmp085_phase_of_tick :
  forall (E : Env) (inp : TickIn) (w : World),
    HARDWARE_VERSION E >= V01O ->
    simulation_mode inp = false ->
    next_counter E (counter_of w) mod 50 = 0 ->
    let d := sensor_data w in
    let o := sensors_task_tick E inp w in
    let d' := sensor_data (world o) in
    result o = Some tt /\
    battery_voltage_10 d' = battery_of inp /\
    if (next_counter E (counter_of w) / 50) mod 2 =? 0
    then temperature_10 d' = bmp085_temp_10_in inp /\
         temperature d' = F32.div (F32.of_Z (bmp085_temp_10_in inp)) (F32.of_Z 10) /\
         pressure d' = pressure d /\
         pressure_height d' = pressure_height d
    else pressure d' = F32.of_Z (bmp085_pressure_in inp) /\
         pressure_height d' =
           scp1000_pressure_to_height E (F32.of_Z (bmp085_pressure_in inp)) (temperature d) /\
         temperature d' = temperature d /\
         temperature_10 d' = temperature_10 d.
Proof.
  intros E inp w Hhw Hs Hc d o d'. subst d o d'. unfold counter_of in *.
  apply Z.geb_ge in Hhw. apply Z.eqb_eq in Hc.
  rewrite sensors_task_tick_run, Hc. cbn [prefix_out result world].
  destruct ((next_counter E (low_update_counter (sensors_locals w)) / 50) mod 2 =? 0)
    eqn:Hp.
  - rewrite (bind_run _ _ _ _ _ _
               (tick_5Hz_temperature E inp (acquired E inp w) Hs Hhw Hp)).
    cbn [prefix_out result world].
    split; [apply tick_end_returns | ].
    pose proof (tick_end_keeps_baro E inp
                  (with_sensor_data (temperature_phase_data inp) (acquired E inp w))) as B.
    assert (K : keeps (same_on (fun v => (battery_voltage_10 (sensor_data v),
                                          temperature_10 (sensor_data v))))
                  (tick_magnetometer E inp ;; tick_ahrs E)).
    { unfold tick_magnetometer, tick_ahrs, locals, assign.
      repeat keeps_step untouched. }
    specialize (K (with_sensor_data (temperature_phase_data inp) (acquired E inp w))).
    unfold same_on in B, K. unfold baro_state in B. cbn in B, K.
    injection B as Bp Bt Bh _ _ _. injection K as Kb Kt.
    rewrite Bp, Bt, Bh, Kb, Kt. repeat split.
  - rewrite (bind_run _ _ _ _ _ _
               (tick_5Hz_pressure E inp (acquired E inp w) Hs Hhw Hp)).
    cbn [prefix_out result world].
    split; [apply tick_end_returns | ].
    pose proof (tick_end_keeps_baro E inp
                  (with_sensor_data (pressure_phase_data E inp) (acquired E inp w))) as B.
    assert (K : keeps (same_on (fun v => (battery_voltage_10 (sensor_data v),
                                          temperature_10 (sensor_data v))))
                  (tick_magnetometer E inp ;; tick_ahrs E)).
    { unfold tick_magnetometer, tick_ahrs, locals, assign.
      repeat keeps_step untouched. }
    specialize (K (with_sensor_data (pressure_phase_data E inp) (acquired E inp w))).
    unfold same_on in B, K. unfold baro_state in B. cbn in B, K.
    injection B as Bp Bt Bh _ _ _. injection K as Kb Kt.
    rewrite Bp, Bt, Bh, Kb, Kt. repeat split.
Qed.

(** ** Bounds kept by the legacy path *)

Lemma clamp_vertical_speed_bounded v s :
  F32.gt (F32.fabs (clamp_vertical_speed v s)) (MAX (F32.of_Z 5) s) = false.
Proof.
  unfold clamp_vertical_speed.
  destruct (F32.gt (F32.fabs v) (MAX (F32.of_Z 5) s)) eqn:T; [ | exact T].
  clear T. unfold MAX.
  destruct s as [sg | sg | | sg m e]; try (destruct sg); try reflexivity.
  destruct (F32.gt (F32.of_Z 5) (S754_finite false m e)); reflexivity.
Qed.

Lemma gate_height_plausible h s :
  F32.gt s (F32.opp (F32.of_Z 30000)) && F32.lt s (F32.of_Z 30000) = true ->
  F32.gt (gate_height h s) (F32.opp (F32.of_Z 30000))
  && F32.lt (gate_height h s) (F32.of_Z 30000) = true.
Proof.
  intros H. unfold gate_height.
  destruct (F32.gt h (F32.opp (F32.of_Z 30000)) && F32.lt h (F32.of_Z 30000)) eqn:T;
    assumption.
Qed.

(** X7.  After every tick of the legacy hardware that reaches the SCP1000
    update, with the token or without, the stored vertical speed does not
    exceed [MAX(5, gps.speed_ms)] in absolute value, in the sense of the
    comparison the code makes (which a NaN passes). *)
Theorem vertical_speed_is_bounded :
  forall (E : Env) (inp : TickIn) (w : World),
    HARDWARE_VERSION E < V01O ->
    next_counter E (counter_of w) mod 50 <> 0 ->
    scp1000_dataready_in inp = true ->
    let d' := sensor_data (world (sensors_task_tick E inp w)) in
    F32.gt (F32.fabs (vertical_speed d')) (MAX (F32.of_Z 5) (speed_ms (gps d'))) = false.
Proof.
  intros E inp w Hhw Hc Hr d'. subst d'. unfold counter_of in Hc.
  apply Z.ltb_lt in Hhw. apply Z.eqb_neq in Hc.
  pose proof (baro_state_on_scp1000_path E inp w Hhw Hc Hr) as B.
  unfold baro_state, scp1000_world in B. cbn in B.
  injection B as _ _ _ Bv Bg _. rewrite Bv, Bg.
  apply clamp_vertical_speed_bounded.
Qed.

#[global] Instance stays_Preorder (P : World -> Prop) : Preorder (stays P).
Proof. split; unfold stays; auto. Qed.

Lemma tick_5Hz_legacy_keeps E inp (R : World -> World -> Prop) `{!Preorder R} :
  (HARDWARE_VERSION E >=? V01O) = false ->
  (forall v, R v (with_sensor_data (set_battery_voltage_10 (battery_of inp)) v)) ->
  keeps R (tick_5Hz E inp).
Proof.
  intros Hhw Hb. unfold tick_5Hz. rewrite Hhw.
  change (when false ?m) with (ret tt).
  unfold call_adc_get_channel, assign.
  repeat first [ apply keeps_modify; exact Hb | keeps_step untouched ].
Qed.

(** An assignment that leaves the height alone, or puts it through the
    height test. *)
Ltac height_kept :=
  idtac;
  first [ intros [? ? ? ?] H; exact H
        | intros [? ? ? ?] H; apply gate_height_plausible; exact H ].

Lemma legacy_tick_keeps_height_plausible E inp :
  (HARDWARE_VERSION E <? V01O) = true ->
  keeps (stays height_plausible) (sensors_task_tick E inp).
Proof.
  intros Hhw.
  unfold sensors_task_tick, tick_wait, read_raw_sensor_data, call_adc_get_channel,
    scale_raw_sensor_data, tick_scp1000, scp1000_update,
    tick_magnetometer, tick_ahrs, sd, locals, assign, assign_local.
  repeat first
    [ apply tick_5Hz_legacy_keeps;
      [ typeclasses eauto | apply legacy_not_newer; exact Hhw | height_kept ]
    | keeps_step height_kept ].
Qed.

Lemma init_keeps_height_plausible E inp :
  keeps (stays height_plausible) (sensors_task_init E inp).
Proof. unfold_sensors. repeat keeps_step height_kept. Qed.

(** X8.  On the legacy hardware a stored height that passes the height
    test (strictly between -30000 and 30000, as the zero of power-on does)
    still passes it after the start-up of [sensors_task] and any number of
    ticks, whatever the sensor returns. *)
Theorem height_stays_plausible :
  forall (E : Env) (init : TickIn) (ticks : list TickIn) (w : World),
    HARDWARE_VERSION E < V01O ->
    height_plausible w ->
    height_plausible (world (sensors_task E init ticks w)).
Proof.
  intros E init ticks w Hhw. apply Z.ltb_lt in Hhw. unfold sensors_task.
  apply (keeps_bind (stays height_plausible));
    [ apply init_keeps_height_plausible
    | intros _; apply loop_keeps;
      [ typeclasses eauto
      | intro inp; apply legacy_tick_keeps_height_plausible; exact Hhw ] ].
Qed.

(** ** The loop and its counter *)

Lemma next_counter_bounds E c : 0 <= next_counter E c <= 65000.
Proof.
  unfold next_counter, uint16.
  destruct ((c + tick_step E) mod 65536 >? 65000) eqn:H; [lia | ].
  pose proof (Z.mod_pos_bound (c + tick_step E) 65536 ltac:(lia)).
  rewrite Z.gtb_ltb in H. apply Z.ltb_ge in H. lia.
Qed.

Lemma next_counter_no_wrap E c :
  0 <= c <= 65000 ->
  next_counter E c = if c + tick_step E >? 65000 then 0 else c + tick_step E.
Proof.
  intros H. unfold next_counter, uint16.
  assert (Hs : 1 <= tick_step E <= 5)
    by (unfold tick_step; destruct (ENABLE_QUADROCOPTER E); lia).
  rewrite Z.mod_small by lia. reflexivity.
Qed.

(** X10.  Whatever the counter was, after a tick it lies between 0 and
    65000; and from a counter in that range the 16-bit addition of the tick
    does not wrap: the counter is advanced by the step of the build (1 at
    250 Hz, 5 at 50 Hz), or back at 0 when that passes 65000. *)
Theorem counter_stays_in_range :
  forall (E : Env) (inp : TickIn) (w : World),
    let c' := counter_of (world (sensors_task_tick E inp w)) in
    0 <= c' <= 65000 /\
    c' = next_counter E (counter_of w) /\
    forall inp2,
      counter_of (world (sensors_task_tick E inp2 (world (sensors_task_tick E inp w))))
      = if c' + tick_step E >? 65000 then 0 else c' + tick_step E.
Proof.
  intros E inp w c'. subst c'. rewrite tick_counter.
  split; [apply next_counter_bounds | ].
  split; [reflexivity | ].
  intros inp2. rewrite !tick_counter.
  apply next_counter_no_wrap, next_counter_bounds.
Qed.

Lemma counter_after_linear E n :
  tick_step E * Z.of_nat n <= 65000 ->
  counter_after E n 0 = tick_step E * Z.of_nat n.
Proof.
  assert (Hs : 1 <= tick_step E <= 5)
    by (unfold tick_step; destruct (ENABLE_QUADROCOPTER E); lia).
  induction n as [|n IH]; intros H; [cbn; lia | ].
  cbn [counter_after]. rewrite IH by lia.
  rewrite next_counter_no_wrap by lia.
  destruct (tick_step E * Z.of_nat n + tick_step E >? 65000) eqn:G.
  - rewrite Z.gtb_ltb in G. apply Z.ltb_lt in G. lia.
  - lia.
Qed.

Lemma tick_5Hz_returns E inp w :
  simulation_mode inp = false -> result (tick_5Hz E inp w) = Some tt.
Proof.
  intros Hs.
  destruct (HARDWARE_VERSION E >=? V01O) eqn:Hhw.
  - destruct ((low_update_counter (sensors_locals w) / 50) mod 2 =? 0) eqn:Hp.
    + rewrite (tick_5Hz_temperature E inp w Hs Hhw Hp). reflexivity.
    + rewrite (tick_5Hz_pressure E inp w Hs Hhw Hp). reflexivity.
  - rewrite (tick_5Hz_legacy E inp w Hs Hhw). reflexivity.
Qed.

Lemma tick_returns_without_flag E inp w :
  simulation_mode inp = false -> result (sensors_task_tick E inp w) = Some tt.
Proof.
  intros Hs. rewrite sensors_task_tick_run. cbn [prefix_out result].
  rewrite (result_bind _ _ _ tt).
  - apply tick_end_returns.
  - destruct (next_counter E (low_update_counter (sensors_locals w)) mod 50 =? 0);
      [apply tick_5Hz_returns; exact Hs | apply tick_scp1000_returns].
Qed.

Lemma counter_after_shift E n c :
  counter_after E n (next_counter E c) = next_counter E (counter_after E n c).
Proof. induction n as [|n IH]; cbn; [reflexivity | rewrite IH; reflexivity]. Qed.

Lemma loop_counter E ticks :
  forall w,
    no_simulation ticks = true ->
    result (sensors_task_loop E ticks w) = Some tt /\
    counter_of (world (sensors_task_loop E ticks w))
    = counter_after E (length ticks) (counter_of w).
Proof.
  induction ticks as [|inp rest IH]; intros w Hn.
  - split; reflexivity.
  - cbn [no_simulation forallb] in Hn. apply andb_true_iff in Hn as [Hs Hrest].
    apply negb_true_iff in Hs.
    cbn [sensors_task_loop length counter_after]. unfold bind.
    rewrite (tick_returns_without_flag E inp w Hs). cbn [result world].
    destruct (IH (world (sensors_task_tick E inp w)) Hrest) as [Hres Hc].
    split; [exact Hres | ].
    rewrite Hc, tick_counter, counter_after_shift. reflexivity.
Qed.

(** X11.  From a counter of 0 and with the simulation flag clear, the loop
    of [sensors_task] returns and its counter after [n] ticks is [n] times
    the step of the build, as long as that does not pass 65000: the 5 Hz
    branch is taken on every tenth tick of the 50 Hz build and on every
    fiftieth of the 250 Hz build. *)
Theorem counter_counts_ticks :
  forall (E : Env) (ticks : list TickIn) (w : World),
    no_simulation ticks = true ->
    counter_of w = 0 ->
    tick_step E * Z.of_nat (length ticks) <= 65000 ->
    let o := sensors_task_loop E ticks w in
    result o = Some tt /\
    counter_of (world o) = tick_step E * Z.of_nat (length ticks) /\
    ((counter_of (world o) mod 50 =? 0)
     = (Z.of_nat (length ticks) mod (if ENABLE_QUADROCOPTER E then 50 else 10) =? 0)).
Proof.
  intros E ticks w Hn H0 Hb o. subst o.
  destruct (loop_counter E ticks w Hn) as [Hres Hc].
  rewrite H0, counter_after_linear in Hc by exact Hb.
  split; [exact Hres | ]. split; [exact Hc | ].
  rewrite Hc. unfold tick_step. destruct (ENABLE_QUADROCOPTER E).
  - rewrite Z.mul_1_l. reflexivity.
  - replace 50 with (5 * 10) by reflexivity.
    rewrite Z.mul_mod_distr_l by lia.
    destruct (Z.eqb_spec (Z.of_nat (length ticks) mod 10) 0) as [H | H].
    + rewrite H. reflexivity.
    + apply Z.eqb_neq. lia.
Qed.

(** ** The end of the task *)

Lemma delete_last_bind {A B} (m : M A) (k : A -> M B) w :
  delete_last (m w) -> (forall a v, delete_last (k a v)) -> delete_last (bind m k w).
Proof.
  intros Hm Hk. unfold bind.
  destruct (m w) as [[a|] w1 t1]; cbn [result world trace]; [ | exact Hm].
  unfold delete_last, returned in Hm. cbn [result trace] in Hm.
  specialize (Hk a w1). unfold delete_last, returned in *. cbn [result trace].
  destruct (result (k a w1)).
  - rewrite forallb_app, Hm, Hk. reflexivity.
  - destruct Hk as (t & Ht & Hn). exists (t1 ++ t). split.
    + rewrite Ht, app_assoc. reflexivity.
    + rewrite forallb_app, Hm, Hn. reflexivity.
Qed.

Lemma delete_last_of_traces {A} (m : M A) w :
  result (m w) <> None ->
  traces (all_events not_delete) m ->
  delete_last (m w).
Proof.
  intros Hr Ht. unfold delete_last, returned.
  destruct (result (m w)); [apply Ht | congruence].
Qed.

Lemma acquire_trace_has_no_delete E : forallb not_delete (acquire_trace E) = true.
Proof. unfold acquire_trace. destruct (ENABLE_QUADROCOPTER E); reflexivity. Qed.

Lemma tick_5Hz_end_has_no_delete E inp :
  simulation_mode inp = false ->
  traces (all_events not_delete)
         (tick_5Hz E inp ;; tick_magnetometer E inp ;; tick_ahrs E).
Proof.
  intros Hs.
  unfold tick_5Hz, bmp085_temperature_phase, bmp085_pressure_phase, call_adc_get_channel,
    tick_magnetometer, tick_ahrs, sd, locals, assign, assign_local.
  rewrite Hs. change (when false ?m) with (ret tt).
  repeat traces_step no_block.
Qed.

Lemma tick_scp1000_end_has_no_delete E inp :
  traces (all_events not_delete)
         (tick_scp1000 E inp ;; tick_magnetometer E inp ;; tick_ahrs E).
Proof.
  unfold tick_scp1000, scp1000_update, tick_magnetometer, tick_ahrs,
    sd, locals, assign, assign_local.
  repeat traces_step no_block.
Qed.

(** A tick ends the task only by deleting it, and then at once. *)
Lemma tick_delete_last E inp w : delete_last (sensors_task_tick E inp w).
Proof.
  rewrite sensors_task_tick_run.
  destruct (next_counter E (low_update_counter (sensors_locals w)) mod 50 =? 0) eqn:Hc.
  - destruct (simulation_mode inp) eqn:Hs.
    + rewrite (bind_exit _ _ _ _ _ (tick_5Hz_simulation E inp _ Hs)).
      unfold delete_last, returned, prefix_out. cbn [result trace].
      exists (acquire_trace E). split; [reflexivity | apply acquire_trace_has_no_delete].
    + unfold delete_last, returned, prefix_out. cbn [result trace].
      rewrite (result_bind _ _ _ tt) by (apply tick_5Hz_returns; exact Hs).
      rewrite tick_end_returns.
      rewrite forallb_app, acquire_trace_has_no_delete.
      apply (tick_5Hz_end_has_no_delete E inp Hs).
  - unfold delete_last, returned, prefix_out. cbn [result trace].
    rewrite (result_bind _ _ _ tt) by apply tick_scp1000_returns.
    rewrite tick_end_returns.
    rewrite forallb_app, acquire_trace_has_no_delete.
    apply (tick_scp1000_end_has_no_delete E inp).
Qed.

Lemma loop_delete_last E ticks w : delete_last (sensors_task_loop E ticks w).
Proof.
  revert w. induction ticks as [|inp rest IH]; intros w; cbn [sensors_task_loop].
  - reflexivity.
  - apply delete_last_bind; [apply tick_delete_last | intros _ v; apply IH].
Qed.

Lemma sensors_task_init_returns E init w : result (sensors_task_init E init w) = Some tt.
Proof.
  unfold sensors_task_init.
  rewrite (bind_run _ _ w tt _ []) by reflexivity.
  rewrite (bind_run _ _ _ tt _ [uart1_puts]) by reflexivity.
  cbn [prefix_out world result].
  destruct (ENABLE_QUADROCOPTER E || F1E_STEERING E),
           (HARDWARE_VERSION E >=? V01O), (HARDWARE_VERSION E >=? V01N);
    reflexivity.
Qed.

Lemma loop_returns_without_flag E ticks :
  no_simulation ticks = true ->
  forall w, result (sensors_task_loop E ticks w) = Some tt.
Proof.
  induction ticks as [|inp rest IH]; intros Hn w; cbn [sensors_task_loop].
  - reflexivity.
  - cbn [no_simulation forallb] in Hn. apply andb_prop in Hn. destruct Hn as [Hs Hn].
    apply negb_true_iff in Hs.
    rewrite (result_bind _ _ _ tt) by (apply tick_returns_without_flag; exact Hs).
    apply IH. exact Hn.
Qed.

(** X9.  [sensors_task] ends only by deleting itself, and then at once.
    Whatever the hardware, the build, the inputs and the number of ticks:
    when the task is still running after its ticks, [vTaskDelete] was never
    called; when it is not, [vTaskDelete] is the last event of its trace and
    occurs nowhere before, so that nothing is read, written to a device or
    filtered after it.  The task is still running whenever the simulation
    flag was clear on every tick. *)
Theorem delete_is_the_last_event :
  forall (E : Env) (init : TickIn) (ticks : list TickIn) (w : World),
    let o := sensors_task E init ticks w in
    (if returned o
     then forallb not_delete (trace o) = true
     else exists t, trace o = t ++ [vTaskDelete] /\ forallb not_delete t = true) /\
    implb (no_simulation ticks) (returned o) = true.
Proof.
  intros E init ticks w o. subst o. split.
  - change (delete_last (sensors_task E init ticks w)). unfold sensors_task.
    apply delete_last_bind; [ | intros _ v; apply loop_delete_last].
    apply delete_last_of_traces.
    + rewrite sensors_task_init_returns. discriminate.
    + apply init_device_traces; try reflexivity.
      destruct (HARDWARE_VERSION E >=? V01O); [split | ]; reflexivity.
  - destruct (no_simulation ticks) eqn:Hn; [ | reflexivity].
    cbn [implb]. unfold returned, sensors_task.
    rewrite (result_bind _ _ _ tt) by apply sensors_task_init_returns.
    rewrite (loop_returns_without_flag E ticks Hn). reflexivity.
Qed.

(** ** The start-up of the GPS task *)

Ltac gps_run :=
  cbv beta iota zeta delta
    [bind when ret emit modify get sd assign assign_gps gps_i assign_i
     result world trace app with_sensor_data with_gps_task_i prefix_out];
  cbn [sensor_data gps_task_i gps set_gps scale_z_gyro sensors_locals
       satellites_in_view status speed_ms latitude_rad longitude_rad
       set_satellites_in_view set_status set_speed_ms set_latitude_rad
       set_longitude_rad].

Lemma gps_wait_step valid_at k w i :
  gps_task_i w = i -> -16384 <= i <= 1000 ->
  gps_wait_for_output valid_at (S k) w =
  prefix_out (poll_trace valid_at i)
             (gps_wait_for_output valid_at k (with_gps_task_i (i * 2) w)).
Proof.
  intros Hi Hb. cbn [gps_wait_for_output]. unfold poll_trace.
  destruct w as [d z l j]. cbn [gps_task_i] in Hi. subst j.
  gps_run.
  assert (Hle : (i <=? 1000) = true) by (apply Z.leb_le; lia).
  rewrite Hle, (int16_in_range (i * 2)) by lia.
  destruct (valid_at i); reflexivity.
Qed.

Lemma gps_wait_done valid_at n w :
  1000 < gps_task_i w ->
  gps_wait_for_output valid_at n w = mkOut (Some tt) w [].
Proof.
  intros H. destruct n as [|k]; [reflexivity | ].
  cbn [gps_wait_for_output]. destruct w as [d z l j]. cbn [gps_task_i] in H.
  gps_run.
  assert (Hle : (j <=? 1000) = false) by (apply Z.leb_gt; lia).
  rewrite Hle. reflexivity.
Qed.

(** The wait loop entered with [i = 10]: seven turns, whatever the bound
    above seven. *)
Lemma gps_wait_enough valid_at n w :
  (7 <= n)%nat ->
  gps_task_i w = 10 ->
  gps_wait_for_output valid_at n w =
  mkOut (Some tt) (with_gps_task_i 1280 w) (flat_map (poll_trace valid_at) poll_values).
Proof.
  intros Hn Hi.
  do 7 (destruct n as [|n]; [lia | ]).
  rewrite (gps_wait_step valid_at _ _ 10) by (exact Hi || lia).
  rewrite (gps_wait_step valid_at _ _ 20) by (reflexivity || lia).
  rewrite (gps_wait_step valid_at _ _ 40) by (reflexivity || lia).
  rewrite (gps_wait_step valid_at _ _ 80) by (reflexivity || lia).
  rewrite (gps_wait_step valid_at _ _ 160) by (reflexivity || lia).
  rewrite (gps_wait_step valid_at _ _ 320) by (reflexivity || lia).
  rewrite (gps_wait_step valid_at _ _ 640) by (reflexivity || lia).
  rewrite gps_wait_done by (cbn; lia).
  unfold prefix_out, poll_values. cbn [result world trace flat_map].
  rewrite ?app_nil_r. reflexivity.
Qed.

Lemma delay_total_app a b : delay_total (a ++ b) = delay_total a + delay_total b.
Proof.
  induction a as [|e a IH]; [reflexivity | ].
  destruct e; cbn [app delay_total]; rewrite ?IH; lia.
Qed.

Lemma poll_delay valid_at i :
  0 <= i -> 0 <= delay_total (poll_trace valid_at i) <= i.
Proof. intros H. unfold poll_trace. destruct (valid_at i); cbn; lia. Qed.

Lemma poll_count valid_at i : count_events is_poll (poll_trace valid_at i) = 1%nat.
Proof. unfold poll_trace. destruct (valid_at i); reflexivity. Qed.

(** X12.  The start-up of [sensors_gps_task] returns whatever the receiver
    answers: it asks seven times whether valid frames are received, with [i]
    going from 10 to 640, waits [i] ms after each negative answer, 1270 ms at
    most in all before the receiver is configured, and leaves the counter at
    1280; a larger bound on the number of turns changes nothing.  On the way
    out the status is [EMPTY], latitude and longitude are zero, and the last
    request is for the indicator to be off. *)
Theorem gps_start_up_is_bounded :
  forall (valid_at : Z -> bool) (w : World),
    let o := sensors_gps_task_init valid_at w in
    let g' := gps (sensor_data (world o)) in
    let polls := flat_map (poll_trace valid_at) poll_values in
    result o = Some tt /\
    trace o = [uart1_puts; gluonscript_init; gps_open_port] ++ polls
              ++ [gps_config_output; vTaskDelay 100; uart1_puts; led2_off] /\
    count_events is_poll polls = 7%nat /\
    0 <= delay_total polls <= 1270 /\
    gps_task_i (world o) = 1280 /\
    status g' = EMPTY /\ latitude_rad g' = F32.zero /\ longitude_rad g' = F32.zero /\
    forall k : nat,
      gps_wait_for_output valid_at (7 + k) (with_gps_task_i 10 w)
      = gps_wait_for_output valid_at 7 (with_gps_task_i 10 w).
Proof.
  intros valid_at w o g' polls. subst o g' polls.
  assert (Hrun : sensors_gps_task_init valid_at w =
    mkOut (Some tt)
      (with_gps_task_i 1280
         (with_sensor_data
            (fun d => set_gps (set_longitude_rad F32.zero
                                 (set_latitude_rad F32.zero (set_status EMPTY (gps d)))) d)
            w))
      ([uart1_puts; gluonscript_init; gps_open_port]
       ++ flat_map (poll_trace valid_at) poll_values
       ++ [gps_config_output; vTaskDelay 100; uart1_puts; led2_off])).
  { unfold sensors_gps_task_init. destruct w as [d z l j]. gps_run.
    match goal with
    | |- context [gps_wait_for_output valid_at 16 ?W] =>
        rewrite (gps_wait_enough valid_at 16 W) by (reflexivity || lia)
    end.
    gps_run. reflexivity. }
  rewrite Hrun. cbn [result world trace].
  split; [reflexivity | ]. split; [reflexivity | ].
  split.
  { unfold poll_values. cbn [flat_map]. rewrite !count_events_app, !poll_count.
    reflexivity. }
  split.
  { unfold poll_values. cbn [flat_map]. rewrite !delay_total_app.
    pose proof (poll_delay valid_at 10 ltac:(lia)).
    pose proof (poll_delay valid_at 20 ltac:(lia)).
    pose proof (poll_delay valid_at 40 ltac:(lia)).
    pose proof (poll_delay valid_at 80 ltac:(lia)).
    pose proof (poll_delay valid_at 160 ltac:(lia)).
    pose proof (poll_delay valid_at 320 ltac:(lia)).
    pose proof (poll_delay valid_at 640 ltac:(lia)).
    cbn [delay_total]. lia. }
  do 4 (split; [reflexivity | ]).
  intros k.
  rewrite (gps_wait_enough valid_at (7 + k)) by (reflexivity || lia).
  rewrite (gps_wait_enough valid_at 7) by (reflexivity || lia).
  reflexivity.
Qed.

(** ** The cycles of the GPS task *)

(** X13.  A cycle that timed out refreshes nothing but the status and the
    satellite count: latitude and longitude are the ones of the last fix,
    and the speed is the cruising speed when airborne, the last speed
    otherwise. *)
Theorem timeout_keeps_last_position :
  forall (E : Env) (inp : GpsIn) (w : World),
    fix_ready inp = false ->
    let g := gps (sensor_data w) in
    let g' := gps (sensor_data (world (sensors_gps_task_cycle E inp w))) in
    g' = set_speed_ms (if airborne inp then cruising_speed_ms E else speed_ms g)
           (set_satellites_in_view 0 (set_status EMPTY g)).
Proof.
  intros E inp w Hfix g g'. subst g g'.
  rewrite sensors_gps_task_cycle_run. cbn [world].
  unfold gps_cycle_world, gps_after_wait, fallback_speed. rewrite Hfix.
  cbn [sensor_data with_gps_task_i with_sensor_data gps set_gps].
  destruct (gps (sensor_data w)) as [st sat sp la lo].
  destruct (airborne inp); reflexivity.
Qed.

Lemma indicator_pattern i :
  0 <= i <= 32765 ->
  ((c_rem i 6 =? 0) || (c_rem (int16 (i + 1)) 6 =? 0) || (c_rem (int16 (i + 2)) 6 =? 0))
  = ((i mod 6 =? 0) || (4 <=? i mod 6)).
Proof.
  intros H. unfold c_rem.
  rewrite !int16_in_range by lia.
  rewrite !Z.rem_mod_nonneg by lia.
  destruct (i mod 6 =? 0) eqn:H0, ((i + 1) mod 6 =? 0) eqn:H1,
           ((i + 2) mod 6 =? 0) eqn:H2, (4 <=? i mod 6) eqn:H4;
    try reflexivity; exfalso;
    rewrite ?Z.eqb_eq, ?Z.eqb_neq, ?Z.leb_le, ?Z.leb_gt in *;
    Z.to_euclidean_division_equations; lia.
Qed.

(** X14.  With an active fix, more than five satellites in view and the
    counter between 0 and 32765 after the cycle, the cycle ends with one
    indicator request, the only one of the cycle: off when the counter is
    0, 4 or 5 modulo 6, on otherwise; the indicator is off three cycles
    out of six. *)
Theorem indicator_blinks_on_good_fix :
  forall (E : Env) (inp : GpsIn) (w : World),
    let o := sensors_gps_task_cycle E inp w in
    let i' := gps_task_i (world o) in
    let g' := gps (sensor_data (world o)) in
    status g' = ACTIVE ->
    satellites_in_view g' > 5 ->
    0 <= i' <= 32765 ->
    exists t,
      trace o = t ++ [if (i' mod 6 =? 0) || (4 <=? i' mod 6) then led2_off else led2_on] /\
      forallb (fun e => negb (is_event led2_off e || is_event led2_on e)) t = true.
Proof.
  intros E inp w o i' g'. subst o i' g'.
  rewrite sensors_gps_task_cycle_run. cbn [result world trace].
  unfold gps_cycle_world, gps_cycle_trace.
  cbn [sensor_data gps_task_i with_gps_task_i with_sensor_data gps set_gps].
  intros Hst Hsat Hi.
  unfold indicator_events. rewrite (indicator_pattern _ Hi), Hst.
  assert (Hgt : (satellites_in_view
                   (fallback_speed E inp (gps_after_wait inp (gps (sensor_data w)))) >? 5)
                = true) by (apply Z.gtb_lt; lia).
  rewrite Hgt. cbn [gps_status_eqb andb negb]. rewrite !andb_true_r.
  assert (Hfix : fix_ready inp = true).
  { destruct (fix_ready inp) eqn:Hf; [reflexivity | exfalso].
    revert Hst. unfold gps_after_wait, fallback_speed. rewrite Hf.
    destruct (gps (sensor_data w)) as [st sat sp la lo].
    destruct ((_ <? 4) && airborne inp); cbn; discriminate. }
  rewrite Hfix.
  destruct ((_ mod 6 =? 0) || _);
    (destruct (c_rem _ 2 =? 0);
     [ exists [xSemaphoreTake_xGpsSemaphore true; gps_update_info; gluonscript_do]
     | exists [xSemaphoreTake_xGpsSemaphore true; gps_update_info] ]);
    split; reflexivity.
Qed.

Lemma half_step i :
  (i + 1) / 2 - i / 2 = if Z.even (i + 1) then 1 else 0.
Proof.
  destruct (Z.even (i + 1)) eqn:He.
  - apply Z.even_spec in He. destruct He as [k Hk].
    Z.to_euclidean_division_equations; lia.
  - rewrite <- Z.negb_odd in He. apply negb_false_iff in He.
    apply Z.odd_spec in He. destruct He as [k Hk].
    Z.to_euclidean_division_equations; lia.
Qed.

Lemma hook_calls_app a b : hook_calls (a ++ b) = (hook_calls a + hook_calls b)%nat.
Proof. unfold hook_calls. rewrite filter_app, length_app. reflexivity. Qed.

(** X15.  Over consecutive cycles that all received a fix, starting with
    the counter at [i0 >= 0] and as long as it stays within 32767, the loop
    returns, the counter counts the cycles, and the post-processing hook is
    called once for every even value the counter passes: [(i0 + n) / 2 -
    i0 / 2] times over [n] cycles. *)
Theorem consecutive_fixes_are_counted :
  forall (E : Env) (cycles : list GpsIn) (w : World),
    all_fixes cycles = true ->
    0 <= gps_task_i w ->
    gps_task_i w + Z.of_nat (length cycles) <= 32767 ->
    let o := sensors_gps_task_loop E cycles w in
    let n := Z.of_nat (length cycles) in
    result o = Some tt /\
    gps_task_i (run_cycles E cycles w) = gps_task_i w + n /\
    Z.of_nat (hook_calls (trace o)) = (gps_task_i w + n) / 2 - gps_task_i w / 2.
Proof.
  intros E cycles. unfold run_cycles.
  induction cycles as [|inp rest IH]; intros w Hall H0 Hn; cbn zeta.
  - cbn. rewrite Z.add_0_r, Z.sub_diag. repeat split; lia.
  - cbn [all_fixes forallb] in Hall. apply andb_prop in Hall. destruct Hall as [Hf Hall].
    cbn [length] in Hn. rewrite Nat2Z.inj_succ in Hn.
    cbn [sensors_gps_task_loop length].
    rewrite (bind_run _ _ w tt _ _ (sensors_gps_task_cycle_run E inp w)).
    unfold prefix_out. cbn [result world trace].
    assert (Hi : gps_task_i (gps_cycle_world E inp w) = gps_task_i w + 1).
    { unfold gps_cycle_world, i_after_wait. rewrite Hf. cbn.
      apply int16_in_range. lia. }
    destruct (IH (gps_cycle_world E inp w) Hall) as (Hr & Hc & Hh);
      [rewrite Hi; lia | rewrite Hi; lia | ].
    cbn zeta in Hr, Hc, Hh.
    split; [exact Hr | ]. split; [rewrite Hc, Hi; lia | ].
    rewrite hook_calls_app, hook_calls_cycle, Nat2Z.inj_add, Hh, Hi.
    unfold i_after_wait. rewrite Hf, int16_in_range, c_rem_2_even by lia.
    pose proof (half_step (gps_task_i w)) as Hs.
    replace (gps_task_i w + Z.of_nat (S (length rest)))
      with (gps_task_i w + 1 + Z.of_nat (length rest)) by lia.
    destruct (Z.even (gps_task_i w + 1)); cbn [Z.of_nat]; lia.
Qed.

(** ** The start-up of the sensor task *)

(** X16.  The start-up of [sensors_task] scales the first samples before it
    chooses [scale_z_gyro]: the yaw rate it leaves, the one the attitude
    filter is initialised with, is the product with the factor the task
    found on entry, and from power-on that factor is zero.  The roll and
    pitch rates carry their constant factors, and the factor chosen by the
    hardware generation is stored for the ticks that follow. *)
Theorem start_up_yaw_rate_uses_old_factor :
  forall (E : Env) (init : TickIn) (w : World),
    let o := sensors_task_init E init w in
    let d' := sensor_data (world o) in
    result o = Some tt /\
    r d' = F32.mul (F32.sub (F32.of_Z (adc_in init 5)) (gyro_z_neutral E)) (scale_z_gyro w) /\
    p d' = F32.mul (F32.sub (F32.of_Z (adc_in init 4)) (gyro_x_neutral E)) gyro_x_factor /\
    q d' = F32.mul (F32.sub (F32.of_Z (adc_in init 7)) (gyro_y_neutral E)) gyro_y_factor /\
    scale_z_gyro (world o)
    = (if HARDWARE_VERSION E >=? V01N then scale_z_gyro_idz500 else scale_z_gyro_adxrs613) /\
    scale_z_gyro power_on = F32.zero.
Proof.
  intros E init w o d'. subst o d'.
  unfold sensors_task_init.
  rewrite (bind_run _ _ w tt _ []) by reflexivity.
  rewrite (bind_run _ _ _ tt _ [uart1_puts]) by reflexivity.
  cbn [prefix_out world result].
  destruct (ENABLE_QUADROCOPTER E || F1E_STEERING E),
           (HARDWARE_VERSION E >=? V01O), (HARDWARE_VERSION E >=? V01N);
    repeat split; reflexivity.
Qed.

(** ** Instances *)

(** An instance of X4: ten ticks of the newer board from power-on. *)
Lemma newer_hardware_never_writes_vertical_speed_witness :
  let E := newer_board in
  let ticks := repeat quiet_tick 10 in
  HARDWARE_VERSION E >= V01O /\
  vertical_speed (sensor_data (world (sensors_task E quiet_tick ticks power_on)))
  = vertical_speed (sensor_data power_on).
Proof.
  cbv zeta.
  assert (H1 : HARDWARE_VERSION newer_board >= V01O) by (vm_compute; discriminate).
  split; [exact H1 | ].
  exact (newer_hardware_never_writes_vertical_speed newer_board quiet_tick
           (repeat quiet_tick 10) power_on H1).
Defined.

(** An instance of X6: the tenth tick of the newer board, whose counter is
    50; 50 / 50 is odd, the pressure is read. *)
Lemma bmp085_phase_of_tick_witness :
  let E := newer_board in
  let inp := quiet_tick in
  let w := run_ticks E (repeat quiet_tick 9) (started E) in
  let d' := sensor_data (world (sensors_task_tick E inp w)) in
  (HARDWARE_VERSION E >= V01O /\
   simulation_mode inp = false /\
   next_counter E (counter_of w) = 50) /\
  pressure d' = F32.of_Z 100125 /\
  temperature_10 d' = temperature_10 (sensor_data w).
Proof.
  cbv zeta.
  assert (H1 : HARDWARE_VERSION newer_board >= V01O) by (vm_compute; discriminate).
  assert (H2 : simulation_mode quiet_tick = false) by reflexivity.
  assert (H3 : next_counter newer_board
                 (counter_of (run_ticks newer_board (repeat quiet_tick 9)
                                (started newer_board))) = 50)
    by (vm_compute; reflexivity).
  assert (H4 : next_counter newer_board
                 (counter_of (run_ticks newer_board (repeat quiet_tick 9)
                                (started newer_board))) mod 50 = 0)
    by (rewrite H3; reflexivity).
  split; [repeat split; assumption | ].
  pose proof (bmp085_phase_of_tick newer_board quiet_tick _ H1 H2 H4) as H.
  cbv zeta in H. rewrite H3 in H.
  change ((50 / 50) mod 2 =? 0) with false in H. cbv iota in H.
  destruct H as (_ & _ & Hp & _ & _ & Ht).
  split; [exact Hp | exact Ht].
Defined.

(** An instance of X7: the first sample of the legacy board. *)
Lemma vertical_speed_is_bounded_witness :
  let E := legacy_board in
  let inp := sample_tick true pa_100m in
  let w := started E in
  let d' := sensor_data (world (sensors_task_tick E inp w)) in
  (HARDWARE_VERSION E < V01O /\
   next_counter E (counter_of w) mod 50 <> 0 /\
   scp1000_dataready_in inp = true) /\
  F32.gt (F32.fabs (vertical_speed d')) (MAX (F32.of_Z 5) (speed_ms (gps d'))) = false.
Proof.
  cbv zeta.
  assert (H1 : HARDWARE_VERSION legacy_board < V01O) by reflexivity.
  assert (H2 : next_counter legacy_board (counter_of (started legacy_board)) mod 50 <> 0)
    by (vm_compute; discriminate).
  assert (H3 : scp1000_dataready_in (sample_tick true pa_100m) = true) by reflexivity.
  split; [repeat split; assumption | ].
  exact (vertical_speed_is_bounded legacy_board _ _ H1 H2 H3).
Defined.

(** An instance of X8: from power-on, where the height is 0. *)
Lemma height_stays_plausible_witness :
  let E := legacy_board in
  let ticks := [sample_tick true pa_100m; sample_tick true pa_30000m] in
  (HARDWARE_VERSION E < V01O /\ height_plausible power_on) /\
  height_plausible (world (sensors_task E quiet_tick ticks power_on)).
Proof.
  cbv zeta.
  assert (H1 : HARDWARE_VERSION legacy_board < V01O) by reflexivity.
  assert (H2 : height_plausible power_on) by (vm_compute; reflexivity).
  split; [split; assumption | ].
  exact (height_stays_plausible legacy_board quiet_tick _ power_on H1 H2).
Defined.

(** An instance of X11: ten ticks of the 50 Hz build take the counter
    from 0 to 50. *)
Lemma counter_counts_ticks_witness :
  let E := legacy_board in
  let ticks := repeat quiet_tick 10 in
  let w := started E in
  let o := sensors_task_loop E ticks w in
  (no_simulation ticks = true /\
   counter_of w = 0 /\
   tick_step E * Z.of_nat (length ticks) <= 65000) /\
  result o = Some tt /\
  counter_of (world o) = tick_step E * Z.of_nat (length ticks) /\
  ((counter_of (world o) mod 50 =? 0)
   = (Z.of_nat (length ticks) mod (if ENABLE_QUADROCOPTER E then 50 else 10) =? 0)).
Proof.
  cbv zeta.
  assert (H1 : no_simulation (repeat quiet_tick 10) = true) by reflexivity.
  assert (H2 : counter_of (started legacy_board) = 0) by (vm_compute; reflexivity).
  assert (H3 : tick_step legacy_board * Z.of_nat (length (repeat quiet_tick 10)) <= 65000)
    by (vm_compute; discriminate).
  split; [repeat split; assumption | ].
  exact (counter_counts_ticks legacy_board _ _ H1 H2 H3).
Defined.

(** An instance of X13: a timeout right after start-up, while airborne. *)
Lemma timeout_keeps_last_position_witness :
  let E := legacy_board in
  let g := gps (sensor_data gps_started) in
  let g' := gps (sensor_data (world (sensors_gps_task_cycle E timeout_cycle gps_started))) in
  fix_ready timeout_cycle = false /\
  g' = set_speed_ms (if airborne timeout_cycle then cruising_speed_ms E else speed_ms g)
         (set_satellites_in_view 0 (set_status EMPTY g)).
Proof.
  cbv zeta.
  assert (H1 : fix_ready timeout_cycle = false) by reflexivity.
  split; [exact H1 | ].
  exact (timeout_keeps_last_position legacy_board timeout_cycle gps_started H1).
Defined.

(** An instance of X14: the first fix after start-up, eight satellites; the
    counter goes to 1281, which is 3 modulo 6. *)
Lemma indicator_blinks_on_good_fix_witness :
  let E := legacy_board in
  let inp := fix_cycle 8 in
  let o := sensors_gps_task_cycle E inp gps_started in
  let i' := gps_task_i (world o) in
  let g' := gps (sensor_data (world o)) in
  (status g' = ACTIVE /\ satellites_in_view g' > 5 /\ 0 <= i' <= 32765) /\
  exists t,
    trace o = t ++ [if (i' mod 6 =? 0) || (4 <=? i' mod 6) then led2_off else led2_on] /\
    forallb (fun e => negb (is_event led2_off e || is_event led2_on e)) t = true.
Proof.
  cbv zeta.
  assert (H1 : status (gps (sensor_data (world
                 (sensors_gps_task_cycle legacy_board (fix_cycle 8) gps_started)))) = ACTIVE)
    by (vm_compute; reflexivity).
  assert (H2 : satellites_in_view (gps (sensor_data (world
                 (sensors_gps_task_cycle legacy_board (fix_cycle 8) gps_started)))) > 5)
    by (vm_compute; reflexivity).
  assert (H3 : 0 <= gps_task_i (world
                 (sensors_gps_task_cycle legacy_board (fix_cycle 8) gps_started)) <= 32765)
    by (vm_compute; split; discriminate).
  split; [repeat split; try assumption; apply H3 | ].
  exact (indicator_blinks_on_good_fix legacy_board (fix_cycle 8) gps_started H1 H2 H3).
Defined.

(** An instance of X15: three fixes after start-up; the counter goes from
    1280 to 1283, the hook runs once, at 1282. *)
Lemma consecutive_fixes_are_counted_witness :
  let E := legacy_board in
  let cycles := [fix_cycle 8; fix_cycle 8; fix_cycle 3] in
  let w := gps_started in
  let o := sensors_gps_task_loop E cycles w in
  let n := Z.of_nat (length cycles) in
  (all_fixes cycles = true /\
   0 <= gps_task_i w /\
   gps_task_i w + Z.of_nat (length cycles) <= 32767) /\
  result o = Some tt /\
  gps_task_i (run_cycles E cycles w) = gps_task_i w + n /\
  Z.of_nat (hook_calls (trace o)) = (gps_task_i w + n) / 2 - gps_task_i w / 2.
Proof.
  cbv zeta.
  assert (H1 : all_fixes [fix_cycle 8; fix_cycle 8; fix_cycle 3] = true) by reflexivity.
  assert (H2 : 0 <= gps_task_i gps_started) by (vm_compute; discriminate).
  assert (H3 : gps_task_i gps_started
               + Z.of_nat (length [fix_cycle 8; fix_cycle 8; fix_cycle 3]) <= 32767)
    by (vm_compute; discriminate).
  split; [repeat split; assumption | ].
  exact (consecutive_fixes_are_counted legacy_board _ gps_started H1 H2 H3).
Defined.
